(** * Vertex student dashboard: reconciliation and date normalisation

    A shallow embedding of the data-handling code of the student dashboard
    (StudentDashboard: [fetchClassSchedules], [parseDateToISO],
    [renderDashboardSection]) and of the materials viewer (MaterialsViewer:
    [fetchModules], [fetchMaterials]), together with the properties the
    specification states about them.

    Conventions of the embedding.
    - A JavaScript value that the code inspects dynamically is a [JsValue].
      Numbers are the integer-valued doubles and NaN.
    - An exception is an explicit [Throw] in the [Completion] monad; a
      [try { } catch { }] block is [try_catch].
    - React state is a record; a component function that calls setters is a
      function from the state before to the state after.
    - A Firestore collection is the list of its documents, in the order the
      snapshot returns them; reading a snapshot always succeeds (network
      failure is outside the model).
    - Console output is a debugging side channel and is not modelled. *)

From Stdlib Require Import ZArith List String Ascii Bool Lia.
From Stdlib Require Import Permutation Sorted.
From Stdlib Require Import DecimalString DecimalZ DecimalPos.
Import ListNotations.

Local Open Scope string_scope.
Local Open Scope Z_scope.

(* ------------------------------------------------------------------ *)
(** ** Exceptions *)

Inductive JsError : Type :=
| TypeError
| RangeError
| UserError.

Inductive Completion (A : Type) : Type :=
| Normal (a : A)
| Throw (e : JsError).

Arguments Normal {A} a.
Arguments Throw {A} e.

Definition bind {A B : Type} (c : Completion A) (k : A -> Completion B)
  : Completion B :=
  match c with
  | Normal a => k a
  | Throw e => Throw e
  end.

Notation "x <- c ;; k" := (bind c (fun x => k))
  (at level 61, c at next level, right associativity).

(** [try { body } catch (e) { handler }] *)
Definition try_catch {A : Type} (body : Completion A)
  (handler : JsError -> Completion A) : Completion A :=
  match body with
  | Normal a => Normal a
  | Throw e => handler e
  end.

(** [Promise.all(xs.map(f))] and [xs.map(f)] with a callback that may throw:
    the results in order, or the first exception. *)
Fixpoint mapM {A B : Type} (f : A -> Completion B) (l : list A)
  : Completion (list B) :=
  match l with
  | [] => Normal []
  | x :: xs => y <- f x ;; ys <- mapM f xs ;; Normal (y :: ys)
  end.

(* ------------------------------------------------------------------ *)
(** ** JavaScript values *)

(** The time value of a [Date] object: milliseconds since the epoch, or NaN
    for an Invalid Date. *)
Inductive TimeValue : Type :=
| Invalid
| Time (ms : Z).

(** A number: NaN or an integer-valued double. *)
Inductive JsNumber : Type :=
| NaN
| Num (z : Z).

(** What calling [v.toDate()] does. *)
Inductive ToDateResult : Type :=
| RetDate (t : TimeValue)     (* returns a Date object *)
| RetUndefined                (* returns something that is not a Date *)
| RetThrows.                  (* throws *)

(** The [toDate] property of an object. *)
Inductive ToDateProp : Type :=
| ToDateAbsent                        (* no such property *)
| ToDateNotCallable                   (* present, typeof is not "function" *)
| ToDateFn (r : ToDateResult).        (* a method *)

(** Values, by the features the code probes: [typeof], truthiness,
    [instanceof Date], the [toDate] property and the [seconds] property. *)
Inductive JsValue : Type :=
| JUndefined
| JNull
| JBool (b : bool)
| JNum (n : JsNumber)
| JString (s : string)
| JDate (t : TimeValue)
| JObject (toDate : ToDateProp) (seconds : option JsNumber).

(** ECMAScript TimeClip: a time value beyond 8.64e15 ms is NaN. *)
Definition maxTime : Z := 8640000000000000.

Definition TimeClip (n : JsNumber) : TimeValue :=
  match n with
  | NaN => Invalid
  | Num z => if Z.abs z <=? maxTime then Time z else Invalid
  end.

(** A Firestore [Timestamp]: it has [toDate()] and the fields [seconds] and
    [nanoseconds].  [toDate()] is [new Date(seconds * 1000 + nanoseconds / 1e6)],
    and [Date] drops the fraction of a millisecond, towards zero.  The sum is
    taken exactly here; the double sum of the code is exact for whole
    seconds. *)
Definition Timestamp (seconds nanoseconds : Z) : JsValue :=
  JObject
    (ToDateFn
       (RetDate
          (TimeClip
             (Num (Z.quot (seconds * 1000000000 + nanoseconds) 1000000)))))
    (Some (Num seconds)).

(** A plain map [{seconds, nanoseconds}], as a serialised timestamp is stored:
    no [toDate]. *)
Definition SecondsMap (seconds : Z) : JsValue :=
  JObject ToDateAbsent (Some (Num seconds)).

(** ToBoolean *)
Definition truthy (v : JsValue) : bool :=
  match v with
  | JUndefined | JNull => false
  | JBool b => b
  | JNum NaN => false
  | JNum (Num z) => negb (z =? 0)
  | JString s => negb (s =? "")%string
  | JDate _ | JObject _ _ => true
  end.

(** [typeof v === "string"] *)
Definition isString (v : JsValue) : bool :=
  match v with JString _ => true | _ => false end.

(** [typeof v === "object"] *)
Definition typeofObject (v : JsValue) : bool :=
  match v with
  | JNull | JDate _ | JObject _ _ => true
  | _ => false
  end.

(** [a || b] on values. *)
Definition jsOr (a b : JsValue) : JsValue := if truthy a then a else b.

(** [a || b] on an optional string field ([None] is undefined). *)
Definition strOr (a : option string) (b : string) : string :=
  match a with
  | Some s => if (s =? "")%string then b else s
  | None => b
  end.

Definition strOrOpt (a b : option string) : option string :=
  match a with
  | Some s => if (s =? "")%string then b else a
  | None => b
  end.

(** [a || b] on an optional integer field. *)
Definition numOr (a : option Z) (b : Z) : Z :=
  match a with
  | Some z => if z =? 0 then b else z
  | None => b
  end.

Definition numOrOpt (a b : option Z) : option Z :=
  match a with
  | Some z => if z =? 0 then b else a
  | None => b
  end.

(* ------------------------------------------------------------------ *)
(** ** Strings *)

(** [s.split(sep)] for a one-character separator. *)
Fixpoint split (sep : ascii) (s : string) : list string :=
  match s with
  | EmptyString => [EmptyString]
  | String c rest =>
      if Ascii.eqb c sep then EmptyString :: split sep rest
      else match split sep rest with
           | [] => [String c EmptyString]
           | p :: ps => String c p :: ps
           end
  end.

(** [s.split("T")[0]] *)
Definition beforeT (s : string) : string := hd "" (split "T" s).

Definition digit (n : Z) : ascii := ascii_of_nat (48 + Z.to_nat (n mod 10)).

Definition pad2 (n : Z) : string :=
  String (digit (n / 10)) (String (digit n) "").

Definition pad3 (n : Z) : string := String (digit (n / 100)) (pad2 n).

Definition pad4 (n : Z) : string := String (digit (n / 1000)) (pad3 n).

Definition pad6 (n : Z) : string :=
  String (digit (n / 100000)) (String (digit (n / 10000)) (pad4 n)).

(* ------------------------------------------------------------------ *)
(** ** Calendar arithmetic of [Date] *)

Definition msPerDay : Z := 86400000.

(** Day(t) and TimeWithinDay(t) *)
Definition Day (t : Z) : Z := t / msPerDay.
Definition TimeWithinDay (t : Z) : Z := t mod msPerDay.

(** Year, month (1..12) and day of the month of a day number, in the
    proleptic Gregorian calendar. *)
Definition civilFromDays (days : Z) : Z * Z * Z :=
  let z := days + 719468 in
  let era := z / 146097 in
  let doe := z - era * 146097 in
  let yoe := (doe - doe / 1460 + doe / 36524 - doe / 146096) / 365 in
  let doy := doe - (365 * yoe + yoe / 4 - yoe / 100) in
  let mp := (5 * doy + 2) / 153 in
  let d := doy - (153 * mp + 2) / 5 + 1 in
  let m := if mp <? 10 then mp + 3 else mp - 9 in
  let y := yoe + era * 400 in
  ((if m <=? 2 then y + 1 else y), m, d).

(** The day number of a calendar date. *)
Definition daysFromCivil (y m d : Z) : Z :=
  let y' := if m <=? 2 then y - 1 else y in
  let era := y' / 400 in
  let yoe := y' - era * 400 in
  let doy := (153 * (if 2 <? m then m - 3 else m + 9) + 2) / 5 + d - 1 in
  let doe := yoe * 365 + yoe / 4 - yoe / 100 + doy in
  era * 146097 + doe - 719468.

(** The year of an ISO string: four digits from 0 to 9999, otherwise a sign
    and six digits. *)
Definition isoYear (y : Z) : string :=
  if (0 <=? y) && (y <=? 9999) then pad4 y
  else if y <? 0 then String "-" (pad6 (- y))
  else String "+" (pad6 y).

Definition isoDate (t : Z) : string :=
  let '(y, m, d) := civilFromDays (Day t) in
  isoYear y ++ "-" ++ pad2 m ++ "-" ++ pad2 d.

Definition isoTime (t : Z) : string :=
  let w := TimeWithinDay t in
  pad2 (w / 3600000) ++ ":" ++ pad2 (w / 60000 mod 60) ++ ":"
    ++ pad2 (w / 1000 mod 60) ++ "." ++ pad3 (w mod 1000).

Definition isoString (t : Z) : string :=
  isoDate t ++ "T" ++ isoTime t ++ "Z".

(** [Date.prototype.toISOString]: a RangeError on an Invalid Date. *)
Definition toISOString (d : TimeValue) : Completion string :=
  match d with
  | Invalid => Throw RangeError
  | Time t => Normal (isoString t)
  end.

(** [Date.prototype.getTime] *)
Definition getTime (d : TimeValue) : JsNumber :=
  match d with
  | Invalid => NaN
  | Time t => Num t
  end.

(** [isNaN(d.getTime())] *)
Definition isNaN (n : JsNumber) : bool :=
  match n with NaN => true | Num _ => false end.

Definition weekdayName (t : Z) : string :=
  match (Day t + 4) mod 7 with
  | 0 => "Sunday"
  | 1 => "Monday"
  | 2 => "Tuesday"
  | 3 => "Wednesday"
  | 4 => "Thursday"
  | 5 => "Friday"
  | _ => "Saturday"
  end.

(* ------------------------------------------------------------------ *)
(** ** The host: what the JavaScript runtime supplies *)

(** [DateParse s] is the time value of [new Date(s)]; outside the ISO format
    its result is implementation-defined.  [localeCompare a b] is
    [a.localeCompare(b)].  [now] is the clock read by [new Date()].
    [LocalTZA t isUTC] is the offset of local time from UTC in milliseconds
    that is in force at [t], where [t] is a UTC time value when [isUTC] is
    true and a local one otherwise, as in ECMAScript.  [NODE_ENV] is
    [process.env.NODE_ENV]. *)
Record Host : Type := {
  DateParse : string -> TimeValue;
  localeCompare : string -> string -> Z;
  now : Z;
  LocalTZA : Z -> bool -> Z;
  NODE_ENV : string
}.

(** ECMA-262 requires of [localeCompare], seen as a function of two strings,
    that it be a consistent comparator. *)
Record ConsistentComparator (cmp : string -> string -> Z) : Prop := {
  cmp_total : forall a b, 0 < cmp a b -> cmp b a < 0;
  cmp_trans : forall a b c, cmp a b <= 0 -> cmp b c <= 0 -> cmp a c <= 0
}.

(** *** A reference host *)

Definition digitVal (c : ascii) : option Z :=
  let n := Z.of_nat (nat_of_ascii c) in
  if (48 <=? n) && (n <=? 57) then Some (n - 48) else None.

Definition isLeap (y : Z) : bool :=
  (y mod 4 =? 0) && (negb (y mod 100 =? 0) || (y mod 400 =? 0)).

Definition daysInMonth (y m : Z) : Z :=
  match m with
  | 2 => if isLeap y then 29 else 28
  | 4 | 6 | 9 | 11 => 30
  | _ => 31
  end.

Definition number2 (a b : ascii) : option Z :=
  match digitVal a, digitVal b with
  | Some x, Some y => Some (10 * x + y)
  | _, _ => None
  end.

(** The date part [YYYY-MM-DD] of the ISO format: the time value of its
    midnight. *)
Definition isoDatePart (cs : list ascii) : option Z :=
  match cs with
  | [y1; y2; y3; y4; sep1; m1; m2; sep2; d1; d2] =>
      if Ascii.eqb sep1 "-" && Ascii.eqb sep2 "-" then
        match number2 y1 y2, number2 y3 y4, number2 m1 m2, number2 d1 d2 with
        | Some yh, Some yl, Some m, Some d =>
            let y := 100 * yh + yl in
            if (1 <=? m) && (m <=? 12) && (1 <=? d) && (d <=? daysInMonth y m)
            then Some (daysFromCivil y m d * msPerDay)
            else None
        | _, _, _, _ => None
        end
      else None
  | _ => None
  end.

(** The time part [THH:mm:ssZ] of the ISO format, in UTC: milliseconds
    within the day. *)
Definition isoTimePart (cs : list ascii) : option Z :=
  match cs with
  | [t; h1; h2; sep1; m1; m2; sep2; s1; s2; z] =>
      if Ascii.eqb t "T" && Ascii.eqb sep1 ":" && Ascii.eqb sep2 ":"
         && Ascii.eqb z "Z" then
        match number2 h1 h2, number2 m1 m2, number2 s1 s2 with
        | Some h, Some m, Some sec =>
            if (h <=? 23) && (m <=? 59) && (sec <=? 59)
            then Some (h * 3600000 + m * 60000 + sec * 1000)
            else None
        | _, _, _ => None
        end
      else None
  | _ => None
  end.

(** The ISO forms [YYYY-MM-DD] and [YYYY-MM-DDTHH:mm:ssZ], both UTC; anything
    else is NaN. *)
Definition isoDateParse (s : string) : TimeValue :=
  let cs := list_ascii_of_string s in
  match isoDatePart (firstn 10 cs), skipn 10 cs with
  | Some d, [] => Time d
  | Some d, rest =>
      match isoTimePart rest with
      | Some w => Time (d + w)
      | None => Invalid
      end
  | None, _ => Invalid
  end.

(** Comparison of strings by code units. *)
Definition codeUnitCompare (a b : string) : Z :=
  match String.compare a b with
  | Lt => -1
  | Eq => 0
  | Gt => 1
  end.

(** A host in production mode, at UTC, on 2024-03-10 at 08:00. *)
Definition refHost : Host := {|
  DateParse := isoDateParse;
  localeCompare := codeUnitCompare;
  now := 1710057600000;
  LocalTZA := fun _ _ => 0;
  NODE_ENV := "production"
|}.

(* ------------------------------------------------------------------ *)
(** ** Records of the store and of the components *)

Module Schedule.
(** The [Schedule] interface, with the [courseId] that some documents
    carry.  [date] is whatever the document holds, since the code inspects
    its type; the other fields have the types the interface declares.  A
    document is this record with its id, and its data has no field [id]
    of its own. *)
Record t : Type := mk {
  id : string;
  moduleTitle : string;
  floorNumber : string;
  classroomNumber : string;
  lecturerName : string;
  branch : string;
  startTime : string;
  endTime : string;
  date : JsValue;
  dayOfWeek : string;
  isRecurring : bool;
  moduleId : option string;
  courseId : option string
}.

Definition with_date (s : t) (d : JsValue) : t :=
  mk (id s) (moduleTitle s) (floorNumber s) (classroomNumber s)
     (lecturerName s) (branch s) (startTime s) (endTime s) d
     (dayOfWeek s) (isRecurring s) (moduleId s) (courseId s).
End Schedule.

Module Enrollment.
(** An enrollment document; [courseId] is a string, as the interface
    declares and the module query requires. *)
Record t : Type := mk {
  id : string;
  studentId : string;
  courseId : string;
  academicYear : string;
  semester : Z;
  status : string
}.
End Enrollment.

Module Course.
(** A course document; [modules] may be missing. *)
Record t : Type := mk {
  id : string;
  title : string;
  code : string;
  modules : option (list string);
  status : string
}.
End Course.

Module ModuleDoc.
(** A raw document of the [modules] collection. *)
Record t : Type := mk {
  id : string;
  title : option string;
  description : option string;
  duration : option Z;
  credits : option Z;
  courseId : option string;
  prerequisites : option (list string);
  learningOutcomes : option (list string);
  assessmentMethods : option (list string);
  createdAt : JsValue;
  updatedAt : JsValue
}.
End ModuleDoc.

Module Module_.
(** The [Module] interface, as the adapter of MaterialsViewer fills it. *)
Record t : Type := mk {
  id : string;
  title : string;
  description : string;
  duration : Z;
  credits : Z;
  courseId : string;
  prerequisites : list string;
  learningOutcomes : list string;
  assessmentMethods : list string;
  createdAt : TimeValue;
  updatedAt : TimeValue
}.
End Module_.

Module MaterialDoc.
(** A raw document of the [materials] collection. *)
Record t : Type := mk {
  id : string;
  moduleId : option string;
  title : option string;
  name : option string;
  description : option string;
  fileUrl : option string;
  fileName : option string;
  fileType : option string;
  fileSize : option Z;
  size : option Z;
  uploadedBy : option string;
  createdAt : JsValue;
  updatedAt : JsValue;
  uploadedAt : JsValue
}.
End MaterialDoc.

Module Material.
Record t : Type := mk {
  id : string;
  moduleId : string;
  title : string;
  description : string;
  fileUrl : string;
  fileName : string;
  fileType : string;
  fileSize : Z;
  uploadedBy : string;
  createdAt : TimeValue;
  updatedAt : TimeValue
}.
End Material.

(** The document store: one list of documents per collection. *)
Record Store : Type := {
  db_enrollments : list Enrollment.t;
  db_courses : list Course.t;
  db_modules : list ModuleDoc.t;
  db_schedules : list Schedule.t;
  db_materials : list MaterialDoc.t
}.

(** State of StudentDashboard that the modelled functions read or set. *)
Record DashboardState : Type := {
  schedules : list Schedule.t;
  schedulesLoading : bool;
  enrolledCourses : list Course.t;
  notifications : list string
}.

Inductive Role : Type := student | lecturer.

(** State of MaterialsViewer. *)
Record ViewerState : Type := {
  modules : list Module_.t;
  materials : list Material.t;
  loading : bool;
  viewer_notifications : list string
}.

(* ------------------------------------------------------------------ *)
(** ** Library operations the components call *)

(** [v.toDate] for a value that is not null or undefined; primitives and
    Date objects have no such property. *)
Definition toDateOf (v : JsValue) : ToDateProp :=
  match v with
  | JObject p _ => p
  | _ => ToDateAbsent
  end.

(** [v.seconds]; [None] is undefined. *)
Definition secondsOf (v : JsValue) : option JsNumber :=
  match v with
  | JObject _ s => s
  | _ => None
  end.

(** The call [v.toDate()]: [None] stands for a result that is not a Date. *)
Definition callToDate (r : ToDateResult) : Completion (option TimeValue) :=
  match r with
  | RetDate t => Normal (Some t)
  | RetUndefined => Normal None
  | RetThrows => Throw UserError
  end.

(** A method of [Date] called on the result of [toDate()]: a TypeError when
    the result is not a Date. *)
Definition onDate {A : Type} (f : TimeValue -> Completion A)
  (o : option TimeValue) : Completion A :=
  match o with
  | Some t => f t
  | None => Throw TypeError
  end.

(** [new Date(x)] for the result [x] of [toDate()]: a copy of a Date, an
    Invalid Date for undefined. *)
Definition newDateOf (o : option TimeValue) : TimeValue :=
  match o with
  | Some t => t
  | None => Invalid
  end.

(** [n * 1000], with [undefined * 1000] being NaN. *)
Definition times1000 (n : option JsNumber) : JsNumber :=
  match n with
  | Some (Num z) => Num (z * 1000)
  | _ => NaN
  end.

(** Truthiness of a property that holds a number or is undefined. *)
Definition truthyNum (n : option JsNumber) : bool :=
  match n with
  | Some (Num z) => negb (z =? 0)
  | _ => false
  end.

(** [array.includes(x)] for an array of strings; [None] is undefined, which
    such an array does not hold. *)
Definition includes (l : list string) (x : option string) : bool :=
  match x with
  | Some s => existsb (String.eqb s) l
  | None => false
  end.

Definition isEmpty {A : Type} (l : list A) : bool :=
  match l with [] => true | _ => false end.

(** [try { return body } catch { return fallback }] *)
Definition catchTo {A : Type} (body : Completion A) (fallback : A) : A :=
  match body with
  | Normal a => a
  | Throw _ => fallback
  end.

(** [a - b] and [a !== b] on numbers. *)
Definition jsSub (a b : JsNumber) : JsNumber :=
  match a, b with
  | Num x, Num y => Num (x - y)
  | _, _ => NaN
  end.

Definition strictNotEqual (a b : JsNumber) : bool :=
  match a, b with
  | Num x, Num y => negb (x =? y)
  | _, _ => true
  end.

(** [query(enrollments, where("studentId", "==", uid))] *)
Definition whereStudentId (uid : string) (docs : list Enrollment.t)
  : list Enrollment.t :=
  filter (fun e => (Enrollment.studentId e =? uid)%string) docs.

(** [query(modules, where("courseId", "==", courseId))] *)
Definition whereCourseId (courseId : string) (docs : list ModuleDoc.t)
  : list ModuleDoc.t :=
  filter (fun m => match ModuleDoc.courseId m with
                   | Some c => (c =? courseId)%string
                   | None => false
                   end) docs.

(** [query(materials, where("moduleId", "==", moduleId))] *)
Definition whereModuleId (moduleId : string) (docs : list MaterialDoc.t)
  : list MaterialDoc.t :=
  filter (fun m => match MaterialDoc.moduleId m with
                   | Some c => (c =? moduleId)%string
                   | None => false
                   end) docs.

(** *** [Array.prototype.sort]

    The sort is stable, and a comparator result of NaN counts as +0.  For a
    consistent comparator the result is fixed by the language; it is computed
    here by insertion from the right.  The comparator may throw, which ends
    the sort. *)
Definition sortCompare (v : JsNumber) : Z :=
  match v with
  | NaN => 0
  | Num z => z
  end.

Fixpoint insertSorted {A : Type} (cmp : A -> A -> Completion JsNumber)
  (x : A) (l : list A) : Completion (list A) :=
  match l with
  | [] => Normal [x]
  | y :: rest =>
      v <- cmp x y ;;
      if sortCompare v <=? 0 then Normal (x :: l)
      else (r <- insertSorted cmp x rest ;; Normal (y :: r))
  end.

Fixpoint js_sort {A : Type} (cmp : A -> A -> Completion JsNumber)
  (l : list A) : Completion (list A) :=
  match l with
  | [] => Normal []
  | x :: rest => s <- js_sort cmp rest ;; insertSorted cmp x s
  end.

(** The same sort for a comparator that returns. *)
Fixpoint insertPure {A : Type} (cmp : A -> A -> JsNumber) (x : A)
  (l : list A) : list A :=
  match l with
  | [] => [x]
  | y :: rest =>
      if sortCompare (cmp x y) <=? 0 then x :: l
      else y :: insertPure cmp x rest
  end.

Fixpoint sortPure {A : Type} (cmp : A -> A -> JsNumber) (l : list A)
  : list A :=
  match l with
  | [] => []
  | x :: rest => insertPure cmp x (sortPure cmp rest)
  end.

(** Identifiers that Firestore generates for a new document: twenty
    characters, each a letter or a digit. *)
Definition isAlnum (c : ascii) : bool :=
  let n := nat_of_ascii c in
  ((48 <=? n) && (n <=? 57) || (65 <=? n) && (n <=? 90)
   || (97 <=? n) && (n <=? 122))%nat.

Definition isAutoId (s : string) : bool :=
  (String.length s =? 20)%nat && forallb isAlnum (list_ascii_of_string s).

(* ------------------------------------------------------------------ *)
(** ** The components *)

Section Components.

Variable host : Host.

(** *** StudentDashboard: [fetchClassSchedules] *)

(** LocalTime(t) and UTC(t) of ECMAScript. *)
Definition LocalTime (t : Z) : Z := t + LocalTZA host t true.

Definition UTC (t : Z) : Z := t - LocalTZA host t false.

(** The demo schedules of development mode. *)
Definition demoSchedules : list Schedule.t :=
  let today := beforeT (isoString (now host)) in
  let weekday := weekdayName (LocalTime (now host)) in
  [ Schedule.mk "demo1" "Introduction to Programming" "2" "201" "Dr. Smith"
      "Main Campus" "09:00" "10:30" (JString today) weekday true
      (Some "demo-module-1") None;
    Schedule.mk "demo2" "Web Development" "3" "305" "Prof. Johnson"
      "Tech Building" "11:00" "12:30" (JString today) weekday true
      (Some "demo-module-2") None ].

(** [enrollmentsSnapshot.docs.map((doc) => doc.data().courseId)] *)
Definition enrolledCourseIds (db : Store) (uid : string) : list string :=
  map Enrollment.courseId (whereStudentId uid (db_enrollments db)).

(** One module query per enrolled course id, joined by [Promise.all]. *)
Definition modulesByEnrolledCourse (db : Store) (uid : string)
  : list (list string) :=
  map (fun courseId => map ModuleDoc.id (whereCourseId courseId (db_modules db)))
      (enrolledCourseIds db uid).

(** [modulesByEnrolledCourse.flat()] *)
Definition enrolledModuleIds (db : Store) (uid : string) : list string :=
  List.concat (modulesByEnrolledCourse db uid).

(** The date of a schedule document, made a string when it has [toDate]. *)
Definition formatDate (formattedDate : JsValue) : Completion JsValue :=
  match formattedDate with
  | JString _ => Normal formattedDate
  | JObject (ToDateFn r) _ =>
      d <- callToDate r ;;
      iso <- onDate toISOString d ;;
      Normal (JString (beforeT iso))
  | _ => Normal formattedDate
  end.

Definition processSchedule (doc : Schedule.t) : Completion Schedule.t :=
  formattedDate <- formatDate (Schedule.date doc) ;;
  Normal (Schedule.with_date doc formattedDate).

(** The filter of [studentSchedules]. *)
Definition isStudentSchedule (db : Store) (uid : string) (schedule : Schedule.t)
  : bool :=
  includes (enrolledCourseIds db uid) (Schedule.courseId schedule)
  || includes (enrolledModuleIds db uid) (Schedule.moduleId schedule).

(** [getDateValue] of the sort comparator. *)
Definition getDateValue (dateStr : JsValue) : Completion JsNumber :=
  try_catch
    (match dateStr with
     | JString s => Normal (getTime (DateParse host s))
     | JDate t => Normal (getTime t)
     | JObject (ToDateFn r) _ =>
         d <- callToDate r ;; onDate (fun t => Normal (getTime t)) d
     | _ => Normal (Num 0)
     end)
    (fun _ => Normal (Num 0)).

(** The comparator of [studentSchedules.sort]. *)
Definition compareSchedules (a b : Schedule.t) : Completion JsNumber :=
  dateA <- getDateValue (Schedule.date a) ;;
  dateB <- getDateValue (Schedule.date b) ;;
  if strictNotEqual dateA dateB then Normal (jsSub dateA dateB)
  else Normal (Num (localeCompare host (Schedule.startTime a)
                                       (Schedule.startTime b))).

Definition sortChronological (l : list Schedule.t)
  : Completion (list Schedule.t) :=
  js_sort compareSchedules l.

(** The number [getDateValue] returns for a date: the key of the sort. *)
Definition dateKey (v : JsValue) : JsNumber :=
  catchTo (getDateValue v) (Num 0).

(** The number the comparator returns. *)
Definition compareKey (a b : Schedule.t) : JsNumber :=
  let dateA := dateKey (Schedule.date a) in
  let dateB := dateKey (Schedule.date b) in
  if strictNotEqual dateA dateB then jsSub dateA dateB
  else Num (localeCompare host (Schedule.startTime a) (Schedule.startTime b)).

(** The date of the schedule yields an instant, not NaN. *)
Definition hasInstant (s : Schedule.t) : Prop :=
  exists x, dateKey (Schedule.date s) = Num x.

(** [a] is not later than [b]: an earlier instant, or the same instant and a
    start time that [localeCompare] does not put after. *)
Definition chronoLe (a b : Schedule.t) : Prop :=
  exists x y,
    dateKey (Schedule.date a) = Num x /\ dateKey (Schedule.date b) = Num y /\
    (x < y \/ (x = y /\
       localeCompare host (Schedule.startTime a) (Schedule.startTime b) <= 0)).

(** The [try] block of [fetchClassSchedules]: the list passed to
    [setSchedules], or the exception that leaves the block. *)
Definition fetchClassSchedules_try (db : Store) (uid : string)
  : Completion (list Schedule.t) :=
  let schedulesSnapshot := db_schedules db in
  if isEmpty schedulesSnapshot then
    if (NODE_ENV host =? "development")%string then Normal demoSchedules
    else Normal []
  else
    let enrollmentsSnapshot := whereStudentId uid (db_enrollments db) in
    if isEmpty enrollmentsSnapshot then Normal []
    else
      allSchedules <- mapM processSchedule schedulesSnapshot ;;
      let studentSchedules := filter (isStudentSchedule db uid) allSchedules in
      sortChronological studentSchedules.

Definition fetchClassSchedules (db : Store) (uid : string)
  (st : DashboardState) : DashboardState :=
  match fetchClassSchedules_try db uid with
  | Normal l =>
      {| schedules := l;
         schedulesLoading := false;
         enrolledCourses := enrolledCourses st;
         notifications := notifications st |}
  | Throw _ =>
      {| schedules := schedules st;
         schedulesLoading := false;
         enrolledCourses := enrolledCourses st;
         notifications :=
           (notifications st ++ ["Failed to load your class schedules"])%list |}
  end.

(** *** StudentDashboard: [parseDateToISO] *)

Definition parseDateToISO (dateValue : JsValue) : Completion (option string) :=
  try_catch
    (match dateValue with
     | JString s =>
         let dateParts := split "-" (beforeT s) in
         if (List.length dateParts =? 3)%nat then Normal (Some (beforeT s))
         else
           let dateObj := DateParse host s in
           if negb (isNaN (getTime dateObj)) then
             iso <- toISOString dateObj ;; Normal (Some (beforeT iso))
           else Normal None
     | JDate t => iso <- toISOString t ;; Normal (Some (beforeT iso))
     | JObject (ToDateFn r) _ =>
         d <- callToDate r ;;
         iso <- onDate toISOString d ;;
         Normal (Some (beforeT iso))
     | _ => Normal None
     end)
    (fun _ => Normal None).

(** *** StudentDashboard: [renderDashboardSection] *)

(** [today] after [today.setHours(0, 0, 0, 0)]: the midnight of the local
    day, brought back to UTC with the offset in force at that midnight. *)
Definition today : Z :=
  UTC (Day (LocalTime (now host)) * msPerDay).

Definition todayFormatted : string := beforeT (isoString today).

(** The callback of the filter of [todaysClasses]. *)
Definition isToday (schedule : Schedule.t) : bool :=
  catchTo
    (scheduleDateFormatted <- parseDateToISO (Schedule.date schedule) ;;
     Normal match scheduleDateFormatted with
            | Some d => (d =? todayFormatted)%string
            | None => false
            end)
    false.

Definition projectToday (l : list Schedule.t) : list Schedule.t :=
  filter isToday l.

(** [enrolledCourses[0].modules?.[0]] *)
Definition firstModule (c : Course.t) : option string :=
  match Course.modules c with
  | Some (m :: _) => Some m
  | _ => None
  end.

Definition demoClass (c : Course.t) : Schedule.t :=
  Schedule.mk "today-demo" (Course.title c) "1" "101" "Dr. Demo" "Main Campus"
    "10:00" "11:30" (JString todayFormatted)
    (weekdayName (LocalTime today)) false (firstModule c) None.

Definition compareStartTime (a b : Schedule.t) : Completion JsNumber :=
  Normal (Num (localeCompare host (Schedule.startTime a) (Schedule.startTime b))).

(** [todaysClasses] as the dashboard renders it. *)
Definition todaysClasses (st : DashboardState) : Completion (list Schedule.t) :=
  let filtered := projectToday (schedules st) in
  let withPlaceholder :=
    if isEmpty filtered && negb (isEmpty (enrolledCourses st)) then
      match enrolledCourses st with
      | c :: _ => [demoClass c]
      | [] => filtered
      end
    else filtered in
  js_sort compareStartTime withPlaceholder.

(** *** MaterialsViewer: [fetchModules] *)

(** [data.createdAt ? new Date(data.createdAt.seconds * 1000) : new Date()] *)
Definition moduleDate (v : JsValue) : TimeValue :=
  if truthy v then TimeClip (times1000 (secondsOf v)) else Time (now host).

Definition listOr (a : option (list string)) : list string :=
  match a with
  | Some l => l
  | None => []
  end.

Definition adaptModule (doc : ModuleDoc.t) : Module_.t :=
  Module_.mk (ModuleDoc.id doc)
    (strOr (ModuleDoc.title doc) "")
    (strOr (ModuleDoc.description doc) "")
    (numOr (ModuleDoc.duration doc) 0)
    (numOr (ModuleDoc.credits doc) 0)
    (strOr (ModuleDoc.courseId doc) "")
    (listOr (ModuleDoc.prerequisites doc))
    (listOr (ModuleDoc.learningOutcomes doc))
    (listOr (ModuleDoc.assessmentMethods doc))
    (moduleDate (ModuleDoc.createdAt doc))
    (moduleDate (ModuleDoc.updatedAt doc)).

(** [role === "student" && viewingCourseId] *)
Definition filtersByCourse (role : Role) (viewingCourseId : option string)
  : option string :=
  match role, viewingCourseId with
  | student, Some c => if (c =? "")%string then None else Some c
  | _, _ => None
  end.

Definition filteredModules (c : string) (allModules : list Module_.t)
  : list Module_.t :=
  filter (fun m => (Module_.courseId m =? c)%string) allModules.

Definition fetchModules_try (role : Role) (viewingCourseId : option string)
  (db : Store) : Completion (list Module_.t) :=
  let allModules := map adaptModule (db_modules db) in
  match filtersByCourse role viewingCourseId with
  | Some c =>
      if (0 <? List.length (filteredModules c allModules))%nat
      then Normal (filteredModules c allModules)
      else Normal allModules
  | None => Normal allModules
  end.

Definition fetchModules (role : Role) (viewingCourseId : option string)
  (db : Store) (st : ViewerState) : ViewerState :=
  match fetchModules_try role viewingCourseId db with
  | Normal modulesToShow =>
      {| modules := modulesToShow;
         materials := materials st;
         loading := false;
         viewer_notifications := viewer_notifications st |}
  | Throw _ =>
      {| modules := modules st;
         materials := materials st;
         loading := false;
         viewer_notifications :=
           (viewer_notifications st ++ ["Failed to load modules"])%list |}
  end.

(** Whether the fallback to all modules fired. *)
Definition fallbackFired (role : Role) (viewingCourseId : option string)
  (db : Store) : bool :=
  match filtersByCourse role viewingCourseId with
  | Some c => isEmpty (filteredModules c (map adaptModule (db_modules db)))
  | None => false
  end.

(** *** MaterialsViewer: [fetchMaterials] *)

Definition processTimestamp (timestamp : JsValue) : Completion TimeValue :=
  if negb (truthy timestamp) then Normal (Time (now host))
  else
    match toDateOf timestamp with
    | ToDateFn r => d <- callToDate r ;; Normal (newDateOf d)
    | _ =>
        match timestamp with
        | JDate t => Normal t
        | _ =>
            if truthyNum (secondsOf timestamp) then
              Normal (TimeClip (times1000 (secondsOf timestamp)))
            else Normal (Time (now host))
        end
    end.

Definition adaptMaterial (moduleId : string) (doc : MaterialDoc.t)
  : Completion Material.t :=
  createdAt <- processTimestamp
                 (jsOr (MaterialDoc.createdAt doc) (MaterialDoc.uploadedAt doc)) ;;
  updatedAt <- processTimestamp
                 (jsOr (MaterialDoc.updatedAt doc) (MaterialDoc.uploadedAt doc)) ;;
  Normal
    (Material.mk (MaterialDoc.id doc)
       (strOr (MaterialDoc.moduleId doc) moduleId)
       (strOr (strOrOpt (MaterialDoc.title doc) (MaterialDoc.name doc)) "Untitled")
       (strOr (MaterialDoc.description doc) "")
       (strOr (MaterialDoc.fileUrl doc) "")
       (strOr (strOrOpt (MaterialDoc.fileName doc)
                 (strOrOpt (MaterialDoc.name doc) (MaterialDoc.fileUrl doc)))
              "Unknown file")
       (strOr (MaterialDoc.fileType doc) "application/octet-stream")
       (numOr (numOrOpt (MaterialDoc.fileSize doc) (MaterialDoc.size doc)) 0)
       (strOr (MaterialDoc.uploadedBy doc) "")
       createdAt updatedAt).

(** The [try] block of [fetchMaterials], after [setMaterials([])]: the list
    passed to [setMaterials], if any. *)
Definition fetchMaterials_try (moduleId : string) (db : Store)
  : Completion (option (list Material.t)) :=
  let materialsSnapshot := whereModuleId moduleId (db_materials db) in
  if isEmpty materialsSnapshot then Normal None
  else
    materialsList <- mapM (adaptMaterial moduleId) materialsSnapshot ;;
    Normal (Some materialsList).

Definition fetchMaterials (moduleId : string) (db : Store) (st : ViewerState)
  : ViewerState :=
  match fetchMaterials_try moduleId db with
  | Normal r =>
      {| modules := modules st;
         materials := match r with Some l => l | None => [] end;
         loading := false;
         viewer_notifications := viewer_notifications st |}
  | Throw _ =>
      {| modules := modules st;
         materials := [];
         loading := false;
         viewer_notifications :=
           (viewer_notifications st ++ ["Failed to load materials"])%list |}
  end.

End Components.

(* ------------------------------------------------------------------ *)
(** ** Values of the scenarios *)

(** Values of a type that none of the date readers supports. *)
Definition unsupportedType (v : JsValue) : bool :=
  match v with
  | JString _ | JDate _ | JObject (ToDateFn _) _ => false
  | _ => true
  end.

(** Any [toDate] method of the value returns a valid Date, as that of a
    Firestore Timestamp does; functions cannot be stored in a document. *)
Definition toDateReturnsDate (v : JsValue) : bool :=
  match v with
  | JObject (ToDateFn (RetDate (Time _))) _ => true
  | JObject (ToDateFn _) _ => false
  | _ => true
  end.

(** The value is one [processTimestamp] does not recognise. *)
Definition unrecognisedTimestamp (v : JsValue) : bool :=
  negb (truthy v)
  || match v with
     | JObject (ToDateFn _) _ | JDate _ => false
     | _ => negb (truthyNum (secondsOf v))
     end.

(** The schedule is associated with the student: its course is among the
    enrolled course ids, or its module among the enrolled module ids. *)
Definition associated (db : Store) (uid : string) (s : Schedule.t) : Prop :=
  (exists c, Schedule.courseId s = Some c /\ In c (enrolledCourseIds db uid))
  \/ (exists m, Schedule.moduleId s = Some m /\ In m (enrolledModuleIds db uid)).

Definition isValidDate (d : TimeValue) : bool :=
  match d with
  | Time _ => true
  | Invalid => false
  end.

(** The timestamps of a material document are values the store can hold. *)
Definition storedTimestamps (d : MaterialDoc.t) : Prop :=
  toDateReturnsDate (MaterialDoc.createdAt d) = true /\
  toDateReturnsDate (MaterialDoc.updatedAt d) = true /\
  toDateReturnsDate (MaterialDoc.uploadedAt d) = true.

(** What [fetchMaterials] makes of the timestamps of a document. *)
Definition timestampsOf (host : Host) (d : MaterialDoc.t) (m : Material.t)
  : Prop :=
  let created := jsOr (MaterialDoc.createdAt d) (MaterialDoc.uploadedAt d) in
  let updated := jsOr (MaterialDoc.updatedAt d) (MaterialDoc.uploadedAt d) in
  Material.id m = MaterialDoc.id d /\
  processTimestamp host created = Normal (Material.createdAt m) /\
  processTimestamp host updated = Normal (Material.updatedAt m) /\
  (unrecognisedTimestamp created = true ->
   Material.createdAt m = Time (now host)) /\
  (unrecognisedTimestamp updated = true ->
   Material.updatedAt m = Time (now host)).

(** The store with one more enrollment document, at position [k] of the
    collection. *)
Definition addEnrollment (k : nat) (e : Enrollment.t) (db : Store) : Store :=
  {| db_enrollments :=
       (firstn k (db_enrollments db) ++ e :: skipn k (db_enrollments db))%list;
     db_courses := db_courses db;
     db_modules := db_modules db;
     db_schedules := db_schedules db;
     db_materials := db_materials db |}.

Module Scenario.

Definition schedule (id startTime endTime : string) (date : JsValue)
  (moduleId courseId : option string) : Schedule.t :=
  Schedule.mk id "" "" "" "" "" startTime endTime date "" false
    moduleId courseId.

Definition moduleDoc (id : string) (courseId : option string) : ModuleDoc.t :=
  ModuleDoc.mk id (Some id) None None None courseId None None None
    (Timestamp 1700000000 0) (Timestamp 1700000000 0).

Definition materialDoc (id moduleId : string) (createdAt : JsValue)
  : MaterialDoc.t :=
  MaterialDoc.mk id (Some moduleId) None None None None None None None None
    None createdAt JUndefined JUndefined.

Definition e1 : Enrollment.t := Enrollment.mk "e1" "s1" "c1" "" 1 "Active".
Definition m1 : ModuleDoc.t := moduleDoc "m1" (Some "c1").
Definition m2 : ModuleDoc.t := moduleDoc "m2" (Some "c2").
Definition sch1 : Schedule.t :=
  schedule "sch1" "09:00" "10:00" (JString "2024-03-10") (Some "m1") None.
Definition sch2 : Schedule.t :=
  schedule "sch2" "08:00" "09:00" (JString "2024-03-10") None (Some "c9").

(** The store of the join scenario. *)
Definition db : Store := {|
  db_enrollments := [e1];
  db_courses := [];
  db_modules := [m1];
  db_schedules := [sch1; sch2];
  db_materials := []
|}.

Definition st0 : DashboardState := {|
  schedules := [];
  schedulesLoading := true;
  enrolledCourses := [];
  notifications := []
|}.

Definition viewer0 : ViewerState := {|
  modules := [];
  materials := [];
  loading := true;
  viewer_notifications := []
|}.

(** A store whose only enrollment names a course that has no document. *)
Definition eX : Enrollment.t := Enrollment.mk "e9" "s1" "cX" "" 1 "Active".
Definition mX : ModuleDoc.t := moduleDoc "mX" (Some "cX").
Definition dbOrphan : Store := {|
  db_enrollments := [eX];
  db_courses := [Course.mk "c1" "Algebra" "MA101" None "Active"];
  db_modules := [mX; m2];
  db_schedules := [];
  db_materials := []
|}.

(** Schedules dated by a bare number and by a string. *)
Definition numeric : Schedule.t :=
  schedule "schN" "08:00" "09:00" (JNum (Num 1710028800)) (Some "m1") None.

(** Two schedules of one day whose dates carry a time. *)
Definition afternoon : Schedule.t :=
  schedule "schA" "08:00" "09:00" (JString "2024-03-10T15:00:00Z")
    (Some "m1") None.
Definition morning : Schedule.t :=
  schedule "schB" "10:00" "11:00" (JString "2024-03-10T09:00:00Z")
    (Some "m1") None.

(** Schedules dated by a Timestamp and by a map of its fields. *)
Definition stamped : Schedule.t :=
  schedule "schT" "09:00" "10:00" (Timestamp 1710028800 0) (Some "m1") None.
Definition mapped : Schedule.t :=
  schedule "schM" "09:00" "10:00" (SecondsMap 1710028800) (Some "m1") None.

Definition algebra : Course.t :=
  Course.mk "c1" "Algebra" "MA101" (Some ["m1"]) "Active".

(** A material whose [createdAt] is a map with seconds beyond the range of
    Date. *)
Definition dbMaterials : Store := {|
  db_enrollments := [];
  db_courses := [];
  db_modules := [m1];
  db_schedules := [];
  db_materials :=
    [materialDoc "mat1" "m1" (SecondsMap 10000000000000);
     materialDoc "mat2" "m1" JUndefined]
|}.

End Scenario.

(* ------------------------------------------------------------------ *)
(** ** The rest of StudentDashboard *)

(** [String(n)] of an integer, as a template literal prints it. *)
Definition numberToString (n : Z) : string :=
  NilZero.string_of_int (Z.to_int n).

(** *** [fetchStudentSchedules]

    Every document of the collection, as it is stored. *)
Definition fetchStudentSchedules (db : Store) (st : DashboardState)
  : DashboardState :=
  let scheduleList := db_schedules db in
  {| schedules := scheduleList;
     schedulesLoading := false;
     enrolledCourses := enrolledCourses st;
     notifications :=
       if (0 <? List.length scheduleList)%nat then
         (notifications st
          ++ [("Found " ++ numberToString (Z.of_nat (List.length scheduleList))
                ++ " class schedules")%string])%list
       else notifications st |}.

(** *** [fetchEnrolledCourses] *)

(** A course with the enrollment that names it. *)
Record EnrolledCourse : Type := {
  ec_course : Course.t;
  ec_enrollment : Enrollment.t
}.

(** State of the courses list. *)
Record CoursesState : Type := {
  cs_enrolledCourses : list EnrolledCourse;
  coursesLoading : bool;
  cs_notifications : list string
}.

(** The string can be the id of a document, so that
    [doc(db, "courses", id)] names a document of the collection: it is not
    empty, has no slash, is neither "." nor "..", does not start with two
    underscores and is at most 1500 characters long. *)
Definition isDocId (s : string) : bool :=
  negb (s =? "")%string
  && (forallb (fun c => negb (Ascii.eqb c "/")) (list_ascii_of_string s)
      && negb (s =? ".")%string && negb (s =? "..")%string
      && negb (String.prefix "__" s)
      && (String.length s <=? 1500)%nat).

(** [getDoc(doc(db, "courses", courseId))]: the document, if it exists. *)
Definition getCourse (db : Store) (courseId : string) : option Course.t :=
  find (fun c => (Course.id c =? courseId)%string) (db_courses db).

(** The callback of [coursesWithEnrollment]: null when the course has no
    document. *)
Definition courseWithEnrollment (db : Store) (enrollmentData : Enrollment.t)
  : option EnrolledCourse :=
  match getCourse db (Enrollment.courseId enrollmentData) with
  | Some courseData =>
      Some {| ec_course :=
                Course.mk (Enrollment.courseId enrollmentData)
                  (Course.title courseData) (Course.code courseData)
                  (Course.modules courseData) (Course.status courseData);
              ec_enrollment := enrollmentData |}
  | None => None
  end.

(** [list.filter((x) => x !== null)] *)
Fixpoint notNull {A : Type} (l : list (option A)) : list A :=
  match l with
  | [] => []
  | Some x :: rest => x :: notNull rest
  | None :: rest => notNull rest
  end.

Definition validCourses (db : Store) (uid : string) : list EnrolledCourse :=
  notNull (map (courseWithEnrollment db)
               (whereStudentId uid (db_enrollments db))).

Definition fetchEnrolledCourses (db : Store) (uid : string)
  (st : CoursesState) : CoursesState :=
  if (uid =? "")%string then
    {| cs_enrolledCourses := cs_enrolledCourses st;
       coursesLoading := false;
       cs_notifications := cs_notifications st |}
  else if isEmpty (whereStudentId uid (db_enrollments db)) then
    {| cs_enrolledCourses := cs_enrolledCourses st;
       coursesLoading := false;
       cs_notifications := cs_notifications st |}
  else
    {| cs_enrolledCourses := validCourses db uid;
       coursesLoading := false;
       cs_notifications :=
         if (0 <? List.length (validCourses db uid))%nat then
           (cs_notifications st
            ++ [("Found "
                  ++ numberToString (Z.of_nat (List.length (validCourses db uid)))
                  ++ " enrolled courses")%string])%list
         else cs_notifications st |}.

(** The courses as [renderDashboardSection] reads them. *)
Definition dashboardCourses (cs : CoursesState) : list Course.t :=
  map ec_course (cs_enrolledCourses cs).

(** *** Navigation to the materials *)

(** [localStorage]: [None] is the null of [getItem]. *)
Definition LocalStorage : Type := string -> option string.

Definition setItem (key value : string) (ls : LocalStorage) : LocalStorage :=
  fun k => if (k =? key)%string then Some value else ls k.

Record NavState : Type := {
  activeSection : string;
  localStorage : LocalStorage;
  nav_notifications : list string
}.

(** [!item] for an item of the storage. *)
Definition noItem (item : option string) : bool :=
  match item with
  | Some s => (s =? "")%string
  | None => true
  end.

Definition handleViewMaterials (courseId courseTitle : string) (st : NavState)
  : NavState :=
  {| activeSection := "materials";
     localStorage := setItem "viewingCourseId" courseId (localStorage st);
     nav_notifications :=
       (nav_notifications st
        ++ [("Loading materials for " ++ courseTitle ++ "...")%string])%list |}.

Definition handleMaterialsNavigation (courses : list Course.t) (st : NavState)
  : NavState :=
  let viewingCourseId := localStorage st "viewingCourseId" in
  match courses with
  | firstCourse :: _ =>
      if noItem viewingCourseId then
        {| activeSection := "materials";
           localStorage :=
             setItem "viewingCourseId" (Course.id firstCourse) (localStorage st);
           nav_notifications :=
             (nav_notifications st
              ++ [("Loading materials for " ++ Course.title firstCourse
                     ++ "...")%string])%list |}
      else
        {| activeSection := "materials";
           localStorage := localStorage st;
           nav_notifications := nav_notifications st |}
  | [] =>
      {| activeSection := "materials";
         localStorage := localStorage st;
         nav_notifications := nav_notifications st |}
  end.

(** The Materials button of a schedule row. *)
Definition viewScheduleMaterials (schedule : Schedule.t) (st : NavState)
  : NavState :=
  match Schedule.moduleId schedule with
  | Some moduleId =>
      if (moduleId =? "")%string then st
      else
        {| activeSection := "materials";
           localStorage := setItem "viewingModuleId" moduleId (localStorage st);
           nav_notifications :=
             (nav_notifications st
              ++ [("Loading materials for " ++ Schedule.moduleTitle schedule
                    ++ "...")%string])%list |}
  | None => st
  end.

(** *** The date of a row of the classes section

    [formatLong t] is [toLocaleDateString("en-US", ...)] of a valid Date. *)
Definition classDateLabel (formatLong : Z -> string) (host : Host)
  (date : JsValue) : string :=
  catchTo
    (dateObj <- match date with
                | JString s => Normal (Some (DateParse host s))
                | JDate t => Normal (Some t)
                | JObject (ToDateFn r) _ => callToDate r
                | _ => Normal None
                end ;;
     Normal match dateObj with
            | Some (Time t) => formatLong t
            | _ => "Unknown date"
            end)
    "Unknown date".

(* ------------------------------------------------------------------ *)
(** ** The rest of MaterialsViewer *)

(** The initial [viewingCourseId]:
    [courseId || localStorage.getItem("viewingCourseId") || undefined]. *)
Definition initialViewingCourseId (courseId : option string)
  (ls : LocalStorage) : option string :=
  strOrOpt courseId (strOrOpt (ls "viewingCourseId") None).

(** *** [updateModulesWithCourseId] *)

(** [!moduleData.courseId] *)
Definition unassigned (doc : ModuleDoc.t) : bool :=
  noItem (ModuleDoc.courseId doc).

(** [updateDoc(moduleRef, { courseId })] on the document. *)
Definition setCourseId (c : string) (doc : ModuleDoc.t) : ModuleDoc.t :=
  ModuleDoc.mk (ModuleDoc.id doc) (ModuleDoc.title doc)
    (ModuleDoc.description doc) (ModuleDoc.duration doc)
    (ModuleDoc.credits doc) (Some c) (ModuleDoc.prerequisites doc)
    (ModuleDoc.learningOutcomes doc) (ModuleDoc.assessmentMethods doc)
    (ModuleDoc.createdAt doc) (ModuleDoc.updatedAt doc).

Definition assignCourse (c : string) (doc : ModuleDoc.t) : ModuleDoc.t :=
  if unassigned doc then setCourseId c doc else doc.

Definition withModules (db : Store) (docs : list ModuleDoc.t) : Store :=
  {| db_enrollments := db_enrollments db;
     db_courses := db_courses db;
     db_modules := docs;
     db_schedules := db_schedules db;
     db_materials := db_materials db |}.

(** The store and the viewer after [updateModulesWithCourseId].  With no
    course selected the update carries an undefined value, which Firestore
    rejects unless it was set up to ignore such values
    ([ignoreUndefinedProperties], in a file that is not among the sources);
    no document changes in either case. *)
Definition updateModulesWithCourseId (ignoreUndefinedProperties : bool)
  (host : Host) (role : Role) (viewingCourseId : option string) (db : Store)
  (st : ViewerState) : Store * ViewerState :=
  match viewingCourseId with
  | Some c =>
      let db' := withModules db (map (assignCourse c) (db_modules db)) in
      (db', fetchModules host role viewingCourseId db' st)
  | None =>
      if existsb unassigned (db_modules db) && negb ignoreUndefinedProperties
      then
        (db, {| modules := modules st;
                materials := materials st;
                loading := loading st;
                viewer_notifications :=
                  (viewer_notifications st ++ ["Failed to update modules"])%list |})
      else (db, fetchModules host role viewingCourseId db st)
  end.

(** *** [getFileIcon] *)

(** [s.includes(sub)] *)
Fixpoint includesStr (sub s : string) : bool :=
  String.prefix sub s
  || match s with
     | EmptyString => false
     | String _ rest => includesStr sub rest
     end.

Definition getFileIcon (fileType : string) : string :=
  if (fileType =? "")%string then "bi bi-file-earmark-text"
  else if includesStr "pdf" fileType then "bi bi-file-earmark-pdf"
  else if includesStr "word" fileType || includesStr "doc" fileType
  then "bi bi-file-earmark-word"
  else if includesStr "excel" fileType || includesStr "sheet" fileType
          || includesStr "csv" fileType
  then "bi bi-file-earmark-excel"
  else if includesStr "presentation" fileType
          || includesStr "powerpoint" fileType
  then "bi bi-file-earmark-slides"
  else if includesStr "image" fileType then "bi bi-file-earmark-image"
  else if includesStr "video" fileType then "bi bi-file-earmark-play"
  else if includesStr "audio" fileType then "bi bi-file-earmark-music"
  else if includesStr "zip" fileType || includesStr "rar" fileType
          || includesStr "tar" fileType
  then "bi bi-file-earmark-zip"
  else "bi bi-file-earmark-text".

(* ------------------------------------------------------------------ *)
(** ** NotificationContext *)

Module Notification.
Record t : Type := mk {
  id : string;
  message : string
}.
End Notification.

(** [showNotification(message)] when [Date.now()] is [dateNow]: the update
    of the list. *)
Definition showNotification (dateNow : Z) (message : string)
  (prevNotifications : list Notification.t) : list Notification.t :=
  (prevNotifications
   ++ [Notification.mk (numberToString dateNow) message])%list.

(** The update that the timer of a notification runs after five seconds. *)
Definition removeNotification (id : string)
  (prevNotifications : list Notification.t) : list Notification.t :=
  filter (fun notification => negb (Notification.id notification =? id)%string)
         prevNotifications.

(* ------------------------------------------------------------------ *)
(** ** More values of the scenarios *)

Module Sample.

(** A store where the course of the first enrollment has a document and the
    course of the second has none. *)
Definition dbCourses : Store := {|
  db_enrollments := [Scenario.e1; Scenario.eX];
  db_courses := [Scenario.algebra];
  db_modules := [Scenario.m1; Scenario.mX];
  db_schedules := [];
  db_materials := []
|}.

Definition courses0 : CoursesState := {|
  cs_enrolledCourses := [];
  coursesLoading := true;
  cs_notifications := []
|}.

(** A list of courses loaded earlier. *)
Definition coursesLoaded : CoursesState := {|
  cs_enrolledCourses :=
    [{| ec_course := Scenario.algebra; ec_enrollment := Scenario.e1 |}];
  coursesLoading := true;
  cs_notifications := []
|}.

(** A store with four schedules of module m1, out of order. *)
Definition dbTimetable : Store := {|
  db_enrollments := [Scenario.e1];
  db_courses := [Scenario.algebra];
  db_modules := [Scenario.m1];
  db_schedules :=
    [Scenario.afternoon; Scenario.stamped; Scenario.sch1; Scenario.morning];
  db_materials := []
|}.

(** The materials of the scenario of the specification. *)
Definition dbShelf : Store := {|
  db_enrollments := [];
  db_courses := [];
  db_modules := [Scenario.m1; Scenario.m2];
  db_schedules := [];
  db_materials :=
    [Scenario.materialDoc "mat1" "m1" (Timestamp 1700000000 0);
     Scenario.materialDoc "mat2" "m2" JUndefined]
|}.

(** A store with a module that has no course. *)
Definition dbUnassigned : Store := {|
  db_enrollments := [Scenario.e1];
  db_courses := [Scenario.algebra];
  db_modules := [Scenario.m1; Scenario.moduleDoc "m9" None];
  db_schedules := [];
  db_materials := []
|}.

Definition nav0 : NavState := {|
  activeSection := "dashboard";
  localStorage := fun _ => None;
  nav_notifications := []
|}.

End Sample.

(** The year of a time value. *)
Definition yearOf (t : Z) : Z := fst (fst (civilFromDays (Day t))).

(** The first instant of 1 March of year 0: from there on the year is not
    negative. *)
Definition marchOfYearZero : Z := -62162035200000.

(** A host at UTC+05:30, on 2024-03-10 at 08:00 local time. *)
Definition colomboHost : Host := {|
  DateParse := isoDateParse;
  localeCompare := codeUnitCompare;
  now := 1710037800000;
  LocalTZA := fun _ _ => 19800000;
  NODE_ENV := "production"
|}.

(** The course that the enrollment names has a document. *)
Definition hasCourseDoc (db : Store) (e : Enrollment.t) : bool :=
  existsb (fun c => (Course.id c =? Enrollment.courseId e)%string)
          (db_courses db).

(** The course ids of the student's enrollments are document ids. *)
Definition enrollmentsNameDocs (db : Store) (uid : string) : Prop :=
  Forall (fun e => isDocId (Enrollment.courseId e) = true)
         (whereStudentId uid (db_enrollments db)).

(** The character does not occur in the string. *)
Fixpoint lacks (c : ascii) (s : string) : bool :=
  match s with
  | EmptyString => true
  | String x rest => negb (Ascii.eqb x c) && lacks c rest
  end.

(** A host at Europe/London on 2024-03-31 at 12:00 local time, the day the
    clocks go forward at 01:00 UTC. *)
Definition londonHost : Host := {|
  DateParse := isoDateParse;
  localeCompare := codeUnitCompare;
  now := 1711882800000;
  LocalTZA := fun t isUTC =>
                if isUTC then (if 1711846800000 <=? t then 3600000 else 0)
                else (if 1711850400000 <=? t then 3600000 else 0);
  NODE_ENV := "production"
|}.

(** The reference host in development mode. *)
Definition devHost : Host := {|
  DateParse := isoDateParse;
  localeCompare := codeUnitCompare;
  now := 1710057600000;
  LocalTZA := fun _ _ => 0;
  NODE_ENV := "development"
|}.

(** The start times are in the order of [localeCompare]. *)
Definition startTimeLe (host : Host) (a b : Schedule.t) : Prop :=
  localeCompare host (Schedule.startTime a) (Schedule.startTime b) <= 0.

(* ------------------------------------------------------------------ *)
(** ** Facts about the monad and about [sort] *)

Lemma mapM_Normal_map {A B : Type} (f : A -> Completion B) (g : A -> B)
  (l : list A) :
  (forall x, In x l -> f x = Normal (g x)) -> mapM f l = Normal (map g l).
Proof.
  induction l as [| x xs IH]; intros H; simpl.
  - reflexivity.
  - rewrite (H x (or_introl eq_refl)). simpl.
    rewrite IH by (intros y Hy; apply H; right; exact Hy).
    reflexivity.
Qed.

Lemma mapM_Normal_inv {A B : Type} (f : A -> Completion B) (l : list A)
  (r : list B) :
  mapM f l = Normal r -> Forall2 (fun x y => f x = Normal y) l r.
Proof.
  revert r. induction l as [| x xs IH]; intros r H; simpl in H.
  - injection H as <-. constructor.
  - destruct (f x) as [y | e] eqn:Hx; simpl in H; [| discriminate].
    destruct (mapM f xs) as [ys | e] eqn:Hxs; simpl in H; [| discriminate].
    injection H as <-. constructor; [exact Hx | apply IH; reflexivity].
Qed.

Section SortFacts.

Context {A : Type}.
Variable cmp : A -> A -> Completion JsNumber.
Variable key : A -> A -> JsNumber.
Hypothesis cmp_returns : forall a b, cmp a b = Normal (key a b).

Lemma insertSorted_pure (x : A) (l : list A) :
  insertSorted cmp x l = Normal (insertPure key x l).
Proof.
  induction l as [| y rest IH]; simpl.
  - reflexivity.
  - rewrite cmp_returns. simpl.
    destruct (sortCompare (key x y) <=? 0); [reflexivity |].
    rewrite IH. reflexivity.
Qed.

Lemma js_sort_pure (l : list A) : js_sort cmp l = Normal (sortPure key l).
Proof.
  induction l as [| x rest IH]; simpl.
  - reflexivity.
  - rewrite IH. simpl. apply insertSorted_pure.
Qed.

Lemma insertPure_perm (x : A) (l : list A) :
  Permutation (x :: l) (insertPure key x l).
Proof.
  induction l as [| y rest IH]; simpl.
  - apply Permutation_refl.
  - destruct (sortCompare (key x y) <=? 0).
    + apply Permutation_refl.
    + eapply perm_trans; [apply perm_swap |].
      apply perm_skip. exact IH.
Qed.

Lemma sortPure_perm (l : list A) : Permutation l (sortPure key l).
Proof.
  induction l as [| x rest IH]; simpl.
  - constructor.
  - eapply perm_trans; [apply perm_skip; exact IH |].
    apply insertPure_perm.
Qed.

(** Sortedness, for a comparator that decides a transitive order [R] on the
    elements that satisfy [P]. *)
Variable P : A -> Prop.
Variable R : A -> A -> Prop.
Hypothesis key_le : forall a b, P a -> P b -> sortCompare (key a b) <= 0 -> R a b.
Hypothesis key_gt : forall a b, P a -> P b -> 0 < sortCompare (key a b) -> R b a.
Hypothesis R_trans : forall a b c, P a -> P b -> P c -> R a b -> R b c -> R a c.

Lemma insertPure_sorted (x : A) (l : list A) :
  P x -> Forall P l -> StronglySorted R l ->
  StronglySorted R (insertPure key x l).
Proof.
  intros Px. induction l as [| y rest IH]; intros HP Hs; simpl.
  - constructor; constructor.
  - inversion HP as [| ? ? Py HPrest]; subst.
    inversion Hs as [| ? ? Hsrest Hall]; subst.
    destruct (sortCompare (key x y) <=? 0) eqn:Hc.
    + apply Z.leb_le in Hc.
      assert (Rxy : R x y) by (apply key_le; assumption).
      constructor; [exact Hs |].
      constructor; [exact Rxy |].
      rewrite Forall_forall in Hall, HPrest |- *.
      intros z Hz. apply (R_trans x y z); auto.
    + apply Z.leb_gt in Hc.
      assert (Ryx : R y x) by (apply key_gt; assumption).
      constructor; [apply IH; assumption |].
      rewrite Forall_forall in Hall |- *.
      intros z Hz.
      apply (Permutation_in _ (Permutation_sym (insertPure_perm x rest))) in Hz.
      destruct Hz as [<- | Hz]; [exact Ryx | apply Hall; exact Hz].
Qed.

Lemma sortPure_sorted (l : list A) :
  Forall P l -> StronglySorted R (sortPure key l).
Proof.
  induction l as [| x rest IH]; intros HP; simpl.
  - constructor.
  - inversion HP as [| ? ? Px HPrest]; subst.
    apply insertPure_sorted; [exact Px | | apply IH; exact HPrest].
    rewrite Forall_forall in HPrest |- *.
    intros z Hz. apply HPrest.
    apply (Permutation_in _ (Permutation_sym (sortPure_perm rest))). exact Hz.
Qed.

End SortFacts.

(* ------------------------------------------------------------------ *)
(** ** The reference comparator is consistent *)

Lemma ascii_compare_trans (a b c : ascii) (o : comparison) :
  Ascii.compare a b = o -> Ascii.compare b c = o -> o <> Eq ->
  Ascii.compare a c = o.
Proof.
  unfold Ascii.compare. intros Hab Hbc Ho.
  destruct o; [congruence | |].
  - rewrite N.compare_lt_iff in *. lia.
  - rewrite N.compare_gt_iff in *. lia.
Qed.

Lemma string_compare_refl (a : string) : String.compare a a = Eq.
Proof.
  induction a as [| c a IH]; simpl; [reflexivity |].
  assert (Ascii.compare c c = Eq) as ->; [| exact IH].
  unfold Ascii.compare. apply N.compare_refl.
Qed.

Lemma string_compare_not_Gt_trans (a b c : string) :
  String.compare a b <> Gt -> String.compare b c <> Gt ->
  String.compare a c <> Gt.
Proof.
  revert b c. induction a as [| x a IH]; intros [| y b] [| z c]; simpl;
    try congruence.
  destruct (Ascii.compare x y) eqn:Hxy; try congruence.
  - apply Ascii.compare_eq_iff in Hxy. subst y.
    destruct (Ascii.compare x z) eqn:Hxz; try congruence.
    apply IH.
  - intros _.
    destruct (Ascii.compare y z) eqn:Hyz; try congruence.
    + apply Ascii.compare_eq_iff in Hyz. subst z. rewrite Hxy. congruence.
    + rewrite (ascii_compare_trans x y z Lt Hxy Hyz); congruence.
Qed.

Lemma codeUnitCompare_consistent : ConsistentComparator codeUnitCompare.
Proof.
  split.
  - intros a b. unfold codeUnitCompare.
    rewrite (String.compare_antisym b a).
    destruct (String.compare a b); simpl; lia.
  - intros a b c. unfold codeUnitCompare. intros Hab Hbc.
    pose proof (string_compare_not_Gt_trans a b c) as H.
    destruct (String.compare a b); destruct (String.compare b c);
      destruct (String.compare a c); try lia;
      exfalso; apply H; congruence.
Qed.

(* ------------------------------------------------------------------ *)
(** ** Properties of the date readers and of the chronological sort *)

Section DateProperties.

Variable host : Host.

Lemma getDateValue_returns (v : JsValue) :
  getDateValue host v = Normal (dateKey host v).
Proof.
  unfold dateKey, getDateValue.
  destruct v as [| | b | n | s | t | [| | [t | |]] sec]; reflexivity.
Qed.

Lemma compareSchedules_returns (a b : Schedule.t) :
  compareSchedules host a b = Normal (compareKey host a b).
Proof.
  unfold compareSchedules, compareKey.
  rewrite !getDateValue_returns. simpl.
  destruct (strictNotEqual _ _); reflexivity.
Qed.

Lemma sortChronological_returns (l : list Schedule.t) :
  sortChronological host l = Normal (sortPure (compareKey host) l).
Proof.
  apply js_sort_pure. apply compareSchedules_returns.
Qed.

Lemma dateKey_unsupported (v : JsValue) :
  unsupportedType v = true -> dateKey host v = Num 0.
Proof.
  destruct v as [| | b | n | s | t | [| | r] sec]; simpl;
    intros H; try discriminate; reflexivity.
Qed.

Lemma chronoLe_of_le (a b : Schedule.t) :
  hasInstant host a -> hasInstant host b ->
  sortCompare (compareKey host a b) <= 0 -> chronoLe host a b.
Proof.
  intros [x Hx] [y Hy]. unfold compareKey, chronoLe.
  rewrite Hx, Hy. simpl.
  destruct (x =? y) eqn:Hxy; simpl; intros H.
  - apply Z.eqb_eq in Hxy. exists x, y. repeat split; auto.
  - apply Z.eqb_neq in Hxy. exists x, y. repeat split; auto. left. lia.
Qed.

Lemma chronoLe_of_gt (a b : Schedule.t) :
  ConsistentComparator (localeCompare host) ->
  hasInstant host a -> hasInstant host b ->
  0 < sortCompare (compareKey host a b) -> chronoLe host b a.
Proof.
  intros Hlc [x Hx] [y Hy]. unfold compareKey, chronoLe.
  rewrite Hx, Hy. simpl.
  destruct (x =? y) eqn:Hxy; simpl; intros H.
  - apply Z.eqb_eq in Hxy. exists y, x. repeat split; auto.
    right. split; [lia |].
    apply (cmp_total _ Hlc) in H. lia.
  - apply Z.eqb_neq in Hxy. exists y, x. repeat split; auto. left. lia.
Qed.

Lemma chronoLe_trans (a b c : Schedule.t) :
  ConsistentComparator (localeCompare host) ->
  chronoLe host a b -> chronoLe host b c -> chronoLe host a c.
Proof.
  intros Hlc (x & y & Hx & Hy & Hab) (y' & z & Hy' & Hz & Hbc).
  rewrite Hy in Hy'. injection Hy' as <-.
  exists x, z. repeat split; auto.
  destruct Hab as [Hab | [-> Hab]]; destruct Hbc as [Hbc | [<- Hbc]];
    try (left; lia).
  right. split; [reflexivity |].
  apply (cmp_trans _ Hlc _ (Schedule.startTime b)); assumption.
Qed.

(** The normaliser returns on every value. *)
Lemma parseDateToISO_returns (v : JsValue) :
  exists r, parseDateToISO host v = Normal r.
Proof.
  unfold parseDateToISO.
  destruct v as [| | b | n | s | t | [| | [t | |]] sec]; simpl;
    try (eexists; reflexivity).
  - destruct (List.length (split "-" (beforeT s)) =? 3)%nat;
      [eexists; reflexivity |].
    destruct (DateParse host s); simpl; eexists; reflexivity.
  - destruct t; simpl; eexists; reflexivity.
  - destruct t; simpl; eexists; reflexivity.
Qed.

Lemma parseDateToISO_unsupported (v : JsValue) :
  unsupportedType v = true -> parseDateToISO host v = Normal None.
Proof.
  destruct v as [| | b | n | s | t | [| | r] sec]; simpl;
    intros H; try discriminate; reflexivity.
Qed.

End DateProperties.

(** C2 (as amended): for every list of schedules the chronological sort
    returns, without the comparison raising, a permutation of the list; when
    [localeCompare] is a consistent comparator and every date yields an
    instant, the result is non-decreasing in the instant of the date and then
    in the start time; a date of an unsupported type is keyed as instant 0,
    the first day of 1970, so such an entry goes before the entries with a
    later date and not after them. *)
Theorem sortChronological_sorted (host : Host) (l : list Schedule.t) :
  exists r,
    sortChronological host l = Normal r /\
    Permutation l r /\
    (ConsistentComparator (localeCompare host) ->
     Forall (hasInstant host) l ->
     StronglySorted (chronoLe host) r) /\
    (forall s, In s r -> unsupportedType (Schedule.date s) = true ->
               dateKey host (Schedule.date s) = Num 0).
Proof.
  exists (sortPure (compareKey host) l).
  split; [apply sortChronological_returns |].
  split; [apply sortPure_perm |].
  split.
  - intros Hlc Hdates.
    apply (sortPure_sorted (compareKey host) (hasInstant host)); auto.
    + apply chronoLe_of_le.
    + intros a b. apply chronoLe_of_gt. exact Hlc.
    + intros a b c _ _ _. apply chronoLe_trans. exact Hlc.
  - intros s _. apply dateKey_unsupported.
Qed.

Lemma sortChronological_sorted_witness :
  exists r,
    sortChronological refHost [Scenario.sch1; Scenario.sch2] = Normal r /\
    StronglySorted (chronoLe refHost) r.
Proof.
  destruct (sortChronological_sorted refHost [Scenario.sch1; Scenario.sch2])
    as (r & Hr & _ & Hsorted & _).
  exists r. split; [exact Hr |].
  apply Hsorted.
  - exact codeUnitCompare_consistent.
  - repeat constructor; eexists; vm_compute; reflexivity.
Defined.

(** C2, counterexample: of a schedule dated by the string "2024-03-10" and a
    schedule dated by a bare number, which the normaliser rejects, the sort
    puts the rejected one first; and of two schedules of the same day it puts
    the one that starts at 10:00 before the one that starts at 08:00, because
    the time in its date is the earlier one. *)
Lemma sortChronological_rejected_first :
  (parseDateToISO refHost (Schedule.date Scenario.sch1)
     = Normal (Some "2024-03-10") /\
   parseDateToISO refHost (Schedule.date Scenario.numeric) = Normal None /\
   sortChronological refHost [Scenario.sch1; Scenario.numeric]
     = Normal [Scenario.numeric; Scenario.sch1]) /\
  (parseDateToISO refHost (Schedule.date Scenario.afternoon)
     = Normal (Some "2024-03-10") /\
   parseDateToISO refHost (Schedule.date Scenario.morning)
     = Normal (Some "2024-03-10") /\
   Schedule.startTime Scenario.afternoon = "08:00" /\
   Schedule.startTime Scenario.morning = "10:00" /\
   sortChronological refHost [Scenario.afternoon; Scenario.morning]
     = Normal [Scenario.morning; Scenario.afternoon]).
Proof.
  repeat split; vm_compute; reflexivity.
Qed.

(** C3: the date normaliser returns on every value and never raises; it
    returns null for the empty string (which [Date] does not parse), for a
    bare number, and for every value of an unsupported type. *)
Theorem parseDateToISO_total (host : Host)
  (Hempty : DateParse host "" = Invalid) :
  (forall v, exists r, parseDateToISO host v = Normal r) /\
  parseDateToISO host (JString "") = Normal None /\
  (forall n, parseDateToISO host (JNum n) = Normal None) /\
  (forall v, unsupportedType v = true -> parseDateToISO host v = Normal None).
Proof.
  split; [apply parseDateToISO_returns |].
  split.
  - unfold parseDateToISO. simpl. rewrite Hempty. reflexivity.
  - split; [reflexivity | apply parseDateToISO_unsupported].
Qed.

Lemma parseDateToISO_total_witness :
  DateParse refHost "" = Invalid /\
  parseDateToISO refHost (JString "") = Normal None /\
  parseDateToISO refHost (JNum (Num 1710028800)) = Normal None /\
  parseDateToISO refHost (JBool true) = Normal None.
Proof.
  assert (H : DateParse refHost "" = Invalid) by reflexivity.
  destruct (parseDateToISO_total refHost H) as (_ & Hstr & Hnum & Hother).
  split; [exact H |].
  split; [exact Hstr |].
  split; [apply Hnum | apply Hother; reflexivity].
Defined.

(** C4, on the code: a string with three parts between hyphens is returned as
    it is, so 30 February 2024 and month 13 come back as dates, not as null,
    and so does a string that holds no date at all. *)
Theorem parseDateToISO_keeps_impossible_date (host : Host) :
  daysInMonth 2024 2 = 29 /\
  parseDateToISO host (JString "2024-02-30") = Normal (Some "2024-02-30") /\
  parseDateToISO host (JString "2024-13-45T10:00") = Normal (Some "2024-13-45") /\
  parseDateToISO host (JString "a-b-c") = Normal (Some "a-b-c").
Proof.
  repeat split.
Qed.

(** C5, on the code: a map that exposes only the epoch seconds 1710028800
    normalises to null, while a Timestamp with [toDate] and the string
    "2024-03-10" both normalise to "2024-03-10"; [processTimestamp] of the
    materials viewer does read the seconds of such a map.  On 2024-03-10 the
    schedule dated by the map is not among today's classes. *)
Theorem parseDateToISO_seconds_map (host : Host) :
  parseDateToISO host (SecondsMap 1710028800) = Normal None /\
  parseDateToISO host (Timestamp 1710028800 0) = Normal (Some "2024-03-10") /\
  parseDateToISO host (JString "2024-03-10") = Normal (Some "2024-03-10") /\
  processTimestamp host (SecondsMap 1710028800) = Normal (Time 1710028800000) /\
  todayFormatted refHost = "2024-03-10" /\
  projectToday refHost [Scenario.sch1; Scenario.stamped; Scenario.mapped]
    = [Scenario.sch1; Scenario.stamped].
Proof.
  repeat split.
Qed.

(* ------------------------------------------------------------------ *)
(** ** Properties of the enrollment join *)

Lemma includes_true (l : list string) (x : option string) :
  includes l x = true <-> exists s, x = Some s /\ In s l.
Proof.
  destruct x as [s |]; simpl.
  - rewrite existsb_exists. split.
    + intros (y & Hy & Heq). apply String.eqb_eq in Heq. subst y.
      exists s. auto.
    + intros (y & [= <-] & Hy). exists s. split; [exact Hy |].
      apply String.eqb_refl.
  - split; [discriminate | intros (s & H & _); discriminate].
Qed.

Lemma In_enrolledCourseIds (db : Store) (uid c : string) :
  In c (enrolledCourseIds db uid) <->
  exists e, In e (db_enrollments db) /\ Enrollment.studentId e = uid /\
            Enrollment.courseId e = c.
Proof.
  unfold enrolledCourseIds, whereStudentId. rewrite in_map_iff. split.
  - intros (e & Hc & He). apply filter_In in He as [He Hs].
    apply String.eqb_eq in Hs. exists e. auto.
  - intros (e & He & Hs & Hc). exists e. split; [exact Hc |].
    apply filter_In. split; [exact He |]. apply String.eqb_eq. exact Hs.
Qed.

Lemma In_enrolledModuleIds (db : Store) (uid m : string) :
  In m (enrolledModuleIds db uid) <->
  exists c doc, In c (enrolledCourseIds db uid) /\ In doc (db_modules db) /\
                ModuleDoc.courseId doc = Some c /\ ModuleDoc.id doc = m.
Proof.
  unfold enrolledModuleIds, modulesByEnrolledCourse.
  rewrite in_concat. split.
  - intros (ids & Hids & Hm).
    apply in_map_iff in Hids as (c & <- & Hc).
    apply in_map_iff in Hm as (doc & Hid & Hdoc).
    unfold whereCourseId in Hdoc. apply filter_In in Hdoc as [Hdoc Hcourse].
    destruct (ModuleDoc.courseId doc) as [c' |] eqn:Hc'; [| discriminate].
    apply String.eqb_eq in Hcourse. subst c'.
    exists c, doc. auto.
  - intros (c & doc & Hc & Hdoc & Hcourse & Hid).
    exists (map ModuleDoc.id (whereCourseId c (db_modules db))). split.
    + apply in_map_iff. exists c. auto.
    + apply in_map_iff. exists doc. split; [exact Hid |].
      unfold whereCourseId. apply filter_In. split; [exact Hdoc |].
      rewrite Hcourse. apply String.eqb_refl.
Qed.

Lemma isStudentSchedule_associated (db : Store) (uid : string) (s : Schedule.t) :
  isStudentSchedule db uid s = true <-> associated db uid s.
Proof.
  unfold isStudentSchedule, associated.
  rewrite orb_true_iff, !includes_true. reflexivity.
Qed.

Lemma enrolledCourseIds_nil (db : Store) (uid : string) :
  whereStudentId uid (db_enrollments db) = [] ->
  forall s, ~ associated db uid s.
Proof.
  intros Hnil s [(c & _ & Hc) | (m & _ & Hm)].
  - unfold enrolledCourseIds in Hc. rewrite Hnil in Hc. exact Hc.
  - apply In_enrolledModuleIds in Hm as (c & _ & Hc & _).
    unfold enrolledCourseIds in Hc. rewrite Hnil in Hc. exact Hc.
Qed.

Lemma processSchedule_returns (d : Schedule.t) :
  toDateReturnsDate (Schedule.date d) = true ->
  exists s, processSchedule d = Normal s.
Proof.
  unfold processSchedule, formatDate.
  destruct (Schedule.date d) as [| | b | n | s | t | [| | [[| ms] | |]] sec];
    simpl; intros H; try discriminate; eexists; reflexivity.
Qed.

Lemma mapM_returns {A B : Type} (f : A -> Completion B) (l : list A) :
  Forall (fun x => exists y, f x = Normal y) l ->
  exists r, mapM f l = Normal r.
Proof.
  induction 1 as [| x xs [y Hy] _ [r Hr]]; simpl.
  - eexists; reflexivity.
  - rewrite Hy, Hr. simpl. eexists; reflexivity.
Qed.

Lemma In_addEnrollment (k : nat) (e x : Enrollment.t) (db : Store) :
  In x (db_enrollments db) -> In x (db_enrollments (addEnrollment k e db)).
Proof.
  simpl. intros H. rewrite <- (firstn_skipn k (db_enrollments db)) in H.
  apply in_app_or in H. apply in_or_app.
  destruct H as [H | H]; [left | right; right]; exact H.
Qed.

Lemma enrolledCourseIds_mono (k : nat) (e : Enrollment.t) (db : Store)
  (uid : string) :
  incl (enrolledCourseIds db uid) (enrolledCourseIds (addEnrollment k e db) uid).
Proof.
  intros c Hc. apply In_enrolledCourseIds in Hc as (x & Hx & Hs & Hc).
  apply In_enrolledCourseIds. exists x.
  split; [apply In_addEnrollment; exact Hx | auto].
Qed.

Lemma enrolledModuleIds_mono (k : nat) (e : Enrollment.t) (db : Store)
  (uid : string) :
  incl (enrolledModuleIds db uid) (enrolledModuleIds (addEnrollment k e db) uid).
Proof.
  intros m Hm. apply In_enrolledModuleIds in Hm as (c & doc & Hc & Hdoc & H).
  apply In_enrolledModuleIds. exists c, doc.
  split; [apply enrolledCourseIds_mono; exact Hc | auto].
Qed.

Lemma associated_mono (k : nat) (e : Enrollment.t) (db : Store) (uid : string)
  (s : Schedule.t) :
  associated db uid s -> associated (addEnrollment k e db) uid s.
Proof.
  intros [(c & Hs & Hc) | (m & Hs & Hm)]; [left | right].
  - exists c. split; [exact Hs | apply enrolledCourseIds_mono; exact Hc].
  - exists m. split; [exact Hs | apply enrolledModuleIds_mono; exact Hm].
Qed.

Lemma fetch_result_nonempty (host : Host) (db : Store) (uid : string)
  (all : list Schedule.t) :
  db_schedules db <> [] ->
  whereStudentId uid (db_enrollments db) <> [] ->
  mapM processSchedule (db_schedules db) = Normal all ->
  fetchClassSchedules_try host db uid
  = Normal (sortPure (compareKey host) (filter (isStudentSchedule db uid) all)).
Proof.
  intros Hs He Hall. unfold fetchClassSchedules_try.
  destruct (db_schedules db) as [| d ds] eqn:Hds; [congruence |].
  destruct (whereStudentId uid (db_enrollments db)) as [| x xs];
    [congruence |].
  cbn [isEmpty]. rewrite Hall. cbn [bind].
  apply sortChronological_returns.
Qed.

Lemma In_fetch_result (host : Host) (db : Store) (uid : string)
  (all : list Schedule.t) (s : Schedule.t) :
  In s (sortPure (compareKey host) (filter (isStudentSchedule db uid) all))
  <-> In s all /\ associated db uid s.
Proof.
  rewrite <- isStudentSchedule_associated, <- filter_In.
  split; apply Permutation_in;
    [apply Permutation_sym |]; apply sortPure_perm.
Qed.

(** C1 (as amended): when the schedules collection is not empty, or the
    application does not run in development mode, a schedule is in the
    student's schedule list exactly when it is one of the schedule documents
    (its date made a string) and its course is among the enrolled course ids
    or its module is among the enrolled module ids; the enrolled course ids
    are the course ids of the student's enrollments, and the enrolled module
    ids are the ids of the modules of those courses; in the scenario of the
    specification the list is sch1 alone.  With an empty collection in
    development mode the list is the demo schedules.  The dates of the
    documents are values a document can hold: a [toDate] method, if any, is
    that of a Timestamp. *)
Theorem effective_schedules_iff (host : Host) (db : Store) (uid : string)
  (st : DashboardState)
  (Hdates : Forall (fun d => toDateReturnsDate (Schedule.date d) = true)
                   (db_schedules db)) :
  exists allSchedules,
    mapM processSchedule (db_schedules db) = Normal allSchedules /\
    (db_schedules db <> [] \/ NODE_ENV host <> "development" ->
     forall s, In s (schedules (fetchClassSchedules host db uid st))
               <-> In s allSchedules /\ associated db uid s) /\
    (db_schedules db = [] -> NODE_ENV host = "development" ->
     schedules (fetchClassSchedules host db uid st) = demoSchedules host) /\
    (forall c, In c (enrolledCourseIds db uid) <->
       exists e, In e (db_enrollments db) /\ Enrollment.studentId e = uid /\
                 Enrollment.courseId e = c) /\
    (forall m, In m (enrolledModuleIds db uid) <->
       exists c doc, In c (enrolledCourseIds db uid) /\
                     In doc (db_modules db) /\
                     ModuleDoc.courseId doc = Some c /\
                     ModuleDoc.id doc = m) /\
    schedules (fetchClassSchedules host Scenario.db "s1" st) = [Scenario.sch1].
Proof.
  destruct (mapM_returns processSchedule (db_schedules db)) as [all Hall].
  { eapply Forall_impl; [| exact Hdates].
    intros d Hd. apply processSchedule_returns. exact Hd. }
  exists all. split; [exact Hall |].
  assert (Htail :
    (forall c, In c (enrolledCourseIds db uid) <->
       exists e, In e (db_enrollments db) /\ Enrollment.studentId e = uid /\
                 Enrollment.courseId e = c) /\
    (forall m, In m (enrolledModuleIds db uid) <->
       exists c doc, In c (enrolledCourseIds db uid) /\
                     In doc (db_modules db) /\
                     ModuleDoc.courseId doc = Some c /\
                     ModuleDoc.id doc = m) /\
    schedules (fetchClassSchedules host Scenario.db "s1" st) = [Scenario.sch1]).
  { split; [apply In_enrolledCourseIds |].
    split; [apply In_enrolledModuleIds | reflexivity]. }
  destruct (db_schedules db) as [| d ds] eqn:Hds.
  - injection Hall as <-.
    split; [| split; [| exact Htail]].
    + intros [Hne | Hmode]; [congruence |].
      assert (Hres : schedules (fetchClassSchedules host db uid st) = []).
      { unfold fetchClassSchedules, fetchClassSchedules_try.
        rewrite Hds. cbn [isEmpty].
        apply String.eqb_neq in Hmode. rewrite Hmode. reflexivity. }
      rewrite Hres. intros s. split; [intros [] | intros [[] _]].
    + intros _ Hmode.
      unfold fetchClassSchedules, fetchClassSchedules_try.
      rewrite Hds. cbn [isEmpty].
      apply String.eqb_eq in Hmode. rewrite Hmode. reflexivity.
  - split; [| split; [congruence | exact Htail]].
    intros _.
    destruct (whereStudentId uid (db_enrollments db)) as [| x xs] eqn:Hen.
    + assert (Hres : schedules (fetchClassSchedules host db uid st) = []).
      { unfold fetchClassSchedules, fetchClassSchedules_try.
        rewrite Hds, Hen. reflexivity. }
      rewrite Hres. intros s. split; [intros [] |].
      intros [_ Ha]. exact (enrolledCourseIds_nil db uid Hen s Ha).
    + assert (Hres : schedules (fetchClassSchedules host db uid st)
                     = sortPure (compareKey host)
                         (filter (isStudentSchedule db uid) all)).
      { unfold fetchClassSchedules.
        rewrite (fetch_result_nonempty host db uid all);
          [reflexivity | | | ]; congruence. }
      rewrite Hres. intros s. apply In_fetch_result.
Qed.

Lemma effective_schedules_iff_witness :
  In Scenario.sch1
     (schedules (fetchClassSchedules refHost Scenario.db "s1" Scenario.st0)) /\
  ~ In Scenario.sch2
       (schedules (fetchClassSchedules refHost Scenario.db "s1" Scenario.st0)).
Proof.
  assert (Hdates : Forall (fun d => toDateReturnsDate (Schedule.date d) = true)
                          (db_schedules Scenario.db))
    by (repeat constructor).
  destruct (effective_schedules_iff refHost Scenario.db "s1" Scenario.st0 Hdates)
    as (all & Hall & Hiff & _).
  injection Hall as <-.
  assert (Hmode : db_schedules Scenario.db <> []
                  \/ NODE_ENV refHost <> "development")
    by (left; discriminate).
  specialize (Hiff Hmode). split.
  - apply (Hiff Scenario.sch1). split; [left; reflexivity |].
    right. exists "m1". split; [reflexivity | left; reflexivity].
  - intros Hin. apply (Hiff Scenario.sch2) in Hin as [_ Hin].
    destruct Hin as [(c & Hc & [Hin | []]) | (m & Hm & _)]; [| discriminate Hm].
    injection Hc as <-. discriminate Hin.
Defined.

(** C1, counterexample: in development mode, with an empty schedules
    collection, the list of the student s1 is the two demo schedules, and
    neither is associated with the student: they have no course, and their
    modules are not among the enrolled module ids. *)
Lemma demo_schedules_listed :
  db_schedules Sample.dbCourses = [] /\
  map Schedule.id
      (schedules (fetchClassSchedules devHost Sample.dbCourses "s1"
                    Scenario.st0))
    = ["demo1"; "demo2"] /\
  map Schedule.courseId
      (schedules (fetchClassSchedules devHost Sample.dbCourses "s1"
                    Scenario.st0))
    = [None; None] /\
  map Schedule.moduleId
      (schedules (fetchClassSchedules devHost Sample.dbCourses "s1"
                    Scenario.st0))
    = [Some "demo-module-1"; Some "demo-module-2"] /\
  enrolledCourseIds Sample.dbCourses "s1" = ["c1"; "cX"] /\
  enrolledModuleIds Sample.dbCourses "s1" = ["m1"; "mX"] /\
  Forall (fun s => ~ associated Sample.dbCourses "s1" s)
         (schedules (fetchClassSchedules devHost Sample.dbCourses "s1"
                       Scenario.st0)).
Proof.
  repeat (split; [reflexivity |]).
  repeat constructor;
    intros [(c & Hc & _) | (m & Hm & Hin)];
    try discriminate Hc;
    injection Hm as <-; cbn in Hin;
    repeat (destruct Hin as [Hin | Hin]; [discriminate Hin |]);
    exact Hin.
Qed.

(** C6 (as amended): a module whose courseId equals the course id of none of
    the student's enrollments never appears among the enrolled module ids;
    the course collection is not read. *)
Theorem orphan_exclusion (db : Store) (uid : string) (m : ModuleDoc.t)
  (Hids : NoDup (map ModuleDoc.id (db_modules db)))
  (Hm : In m (db_modules db))
  (Horphan : forall e, In e (db_enrollments db) ->
                       Enrollment.studentId e = uid ->
                       ModuleDoc.courseId m <> Some (Enrollment.courseId e)) :
  ~ In (ModuleDoc.id m) (enrolledModuleIds db uid).
Proof.
  intros Hin.
  apply In_enrolledModuleIds in Hin as (c & doc & Hc & Hdoc & Hcourse & Hid).
  assert (doc = m) as ->.
  { clear - Hids Hm Hdoc Hid.
    induction (db_modules db) as [| y ys IH]; [contradiction |].
    simpl in Hids. inversion Hids as [| ? ? Hnot Hrest]; subst.
    destruct Hm as [-> | Hm]; destruct Hdoc as [-> | Hdoc]; auto.
    - exfalso. apply Hnot. rewrite <- Hid. apply in_map. exact Hdoc.
    - exfalso. apply Hnot. rewrite Hid. apply in_map. exact Hm. }
  apply In_enrolledCourseIds in Hc as (e & He & Hs & Hec).
  apply (Horphan e He Hs). rewrite Hcourse, Hec. reflexivity.
Qed.

Lemma orphan_exclusion_witness :
  In Scenario.m2 (db_modules Scenario.dbOrphan) /\
  ~ In "m2" (enrolledModuleIds Scenario.dbOrphan "s1").
Proof.
  split; [right; left; reflexivity |].
  apply (orphan_exclusion Scenario.dbOrphan "s1" Scenario.m2).
  - repeat constructor; simpl; intuition discriminate.
  - right; left; reflexivity.
  - intros e [<- | []] _. discriminate.
Defined.

(** C6, counterexample: the module mX belongs to course cX, the course
    collection holds no course cX, and mX is among the enrolled module ids of
    the student whose enrollment names cX. *)
Lemma orphan_module_enrolled :
  Forall (fun c => ModuleDoc.courseId Scenario.mX <> Some (Course.id c))
         (db_courses Scenario.dbOrphan) /\
  In Scenario.mX (db_modules Scenario.dbOrphan) /\
  enrolledModuleIds Scenario.dbOrphan "s1" = ["mX"].
Proof.
  split; [repeat constructor; discriminate |].
  split; [left; reflexivity | reflexivity].
Qed.

(** C9: one more enrollment document, wherever it stands in the collection,
    removes nothing from the student's enrolled course ids, enrolled module
    ids and schedule list. *)
Theorem join_monotone (host : Host) (db : Store) (uid : string)
  (st : DashboardState) (k : nat) (e : Enrollment.t) :
  incl (enrolledCourseIds db uid)
       (enrolledCourseIds (addEnrollment k e db) uid) /\
  incl (enrolledModuleIds db uid)
       (enrolledModuleIds (addEnrollment k e db) uid) /\
  incl (schedules (fetchClassSchedules host db uid st))
       (schedules (fetchClassSchedules host (addEnrollment k e db) uid st)).
Proof.
  split; [apply enrolledCourseIds_mono |].
  split; [apply enrolledModuleIds_mono |].
  destruct (db_schedules db) as [| d ds] eqn:Hds.
  { unfold fetchClassSchedules, fetchClassSchedules_try. simpl.
    rewrite Hds. simpl. apply incl_refl. }
  destruct (whereStudentId uid (db_enrollments db)) as [| x xs] eqn:Hen.
  { unfold fetchClassSchedules at 1. unfold fetchClassSchedules_try.
    rewrite Hds, Hen. simpl. intros s []. }
  assert (Hen' : whereStudentId uid (db_enrollments (addEnrollment k e db))
                 <> []).
  { intros Hnil.
    assert (Hx : In x (whereStudentId uid (db_enrollments db)))
      by (rewrite Hen; left; reflexivity).
    unfold whereStudentId in Hx, Hnil. apply filter_In in Hx as [Hx Hs].
    assert (Hx' : In x (filter (fun e0 => (Enrollment.studentId e0 =? uid)%string)
                          (db_enrollments (addEnrollment k e db)))).
    { apply filter_In. split; [apply In_addEnrollment; exact Hx | exact Hs]. }
    rewrite Hnil in Hx'. exact Hx'. }
  destruct (mapM processSchedule (db_schedules db)) as [all | err] eqn:Hall.
  - unfold fetchClassSchedules.
    rewrite (fetch_result_nonempty host db uid all); [| congruence .. | exact Hall].
    rewrite (fetch_result_nonempty host (addEnrollment k e db) uid all);
      [| simpl; congruence | exact Hen' | exact Hall].
    simpl. intros s Hs.
    apply In_fetch_result in Hs as [Hs Ha]. apply In_fetch_result.
    split; [exact Hs | apply associated_mono; exact Ha].
  - unfold fetchClassSchedules, fetchClassSchedules_try.
    change (db_schedules (addEnrollment k e db)) with (db_schedules db).
    rewrite Hds, Hen. rewrite Hds in Hall.
    destruct (whereStudentId uid (db_enrollments (addEnrollment k e db)));
      [congruence |].
    cbn [isEmpty]. rewrite Hall. simpl. apply incl_refl.
Qed.

(* ------------------------------------------------------------------ *)
(** ** Properties of today's classes *)

Lemma todaysClasses_sorted (host : Host) (l : list Schedule.t) :
  js_sort (compareStartTime host) l
  = Normal (sortPure (fun a b => Num (localeCompare host (Schedule.startTime a)
                                                    (Schedule.startTime b))) l).
Proof.
  apply js_sort_pure. intros a b. reflexivity.
Qed.

(** C8: when no schedule is dated today and the student has an enrolled
    course, today's classes are exactly one placeholder, made from the first
    enrolled course, whose id "today-demo" is not an id the store generates;
    when some schedule is dated today, or there is no enrolled course, today's
    classes are the schedules dated today, reordered, and nothing else. *)
Theorem placeholder_policy (host : Host) (st : DashboardState) :
  (projectToday host (schedules st) = [] -> enrolledCourses st <> [] ->
   exists c,
     hd_error (enrolledCourses st) = Some c /\
     todaysClasses host st = Normal [demoClass host c] /\
     Schedule.id (demoClass host c) = "today-demo" /\
     isAutoId (Schedule.id (demoClass host c)) = false) /\
  (projectToday host (schedules st) <> [] \/ enrolledCourses st = [] ->
   exists r,
     todaysClasses host st = Normal r /\
     Permutation (projectToday host (schedules st)) r).
Proof.
  unfold todaysClasses. split.
  - intros Hnone Hcourses. rewrite Hnone.
    destruct (enrolledCourses st) as [| c rest]; [congruence |].
    exists c. repeat split.
  - intros Hcase. rewrite todaysClasses_sorted.
    eexists. split; [reflexivity |].
    assert (Hsame :
      (if isEmpty (projectToday host (schedules st))
          && negb (isEmpty (enrolledCourses st))
       then match enrolledCourses st with
            | c :: _ => [demoClass host c]
            | [] => projectToday host (schedules st)
            end
       else projectToday host (schedules st))
      = projectToday host (schedules st)).
    { destruct Hcase as [Hsome | Hnone].
      - destruct (projectToday host (schedules st)); [congruence | reflexivity].
      - rewrite Hnone. destruct (isEmpty _ && _); reflexivity. }
    rewrite Hsame. apply sortPure_perm.
Qed.

Lemma placeholder_policy_witness :
  todaysClasses refHost
    {| schedules := [Scenario.numeric];
       schedulesLoading := false;
       enrolledCourses := [Scenario.algebra];
       notifications := [] |}
  = Normal [demoClass refHost Scenario.algebra].
Proof.
  destruct (placeholder_policy refHost
              {| schedules := [Scenario.numeric];
                 schedulesLoading := false;
                 enrolledCourses := [Scenario.algebra];
                 notifications := [] |}) as [Hplaceholder _].
  destruct Hplaceholder as (c & Hc & Hclasses & _).
  - reflexivity.
  - discriminate.
  - injection Hc as <-. exact Hclasses.
Defined.

(* ------------------------------------------------------------------ *)
(** ** Properties of the materials viewer *)

Lemma filteredModules_none (host : Host) (c : string) (docs : list ModuleDoc.t) :
  c <> "" ->
  (forall m, In m docs -> ModuleDoc.courseId m <> Some c) ->
  filteredModules c (map (adaptModule host) docs) = [].
Proof.
  intros Hc. induction docs as [| d ds IH]; intros Hnone; simpl.
  - reflexivity.
  - assert (Hd : (strOr (ModuleDoc.courseId d) "" =? c)%string = false).
    { apply String.eqb_neq. intros Heq.
      pose proof (Hnone d (or_introl eq_refl)) as Hneq.
      destruct (ModuleDoc.courseId d) as [x |]; simpl in Heq.
      - destruct (x =? "")%string eqn:Hx; [congruence |].
        apply Hneq. rewrite Heq. reflexivity.
      - congruence. }
    unfold filteredModules in *. simpl. rewrite Hd.
    apply IH. intros m Hm. apply Hnone. right. exact Hm.
Qed.

(** C7 (as amended): when no module has the requested courseId, the viewer
    shows all modules; nothing reports that the fallback fired: no
    notification is added, and the state is the one the unfiltered listing of
    a lecturer produces. *)
Theorem fetchModules_fallback (host : Host) (c : string) (db : Store)
  (st : ViewerState)
  (Hc : c <> "")
  (Hnone : forall m, In m (db_modules db) -> ModuleDoc.courseId m <> Some c) :
  fallbackFired host student (Some c) db = true /\
  modules (fetchModules host student (Some c) db st)
    = map (adaptModule host) (db_modules db) /\
  viewer_notifications (fetchModules host student (Some c) db st)
    = viewer_notifications st /\
  fetchModules host student (Some c) db st
    = fetchModules host lecturer (Some c) db st.
Proof.
  assert (Hfilter : filtersByCourse student (Some c) = Some c).
  { simpl. apply String.eqb_neq in Hc. rewrite Hc. reflexivity. }
  pose proof (filteredModules_none host c (db_modules db) Hc Hnone) as Hempty.
  unfold fallbackFired, fetchModules, fetchModules_try.
  rewrite Hfilter, Hempty. simpl. repeat split.
Qed.

Lemma fetchModules_fallback_witness :
  modules (fetchModules refHost student (Some "c9") Scenario.db Scenario.viewer0)
  = map (adaptModule refHost) (db_modules Scenario.db).
Proof.
  apply (fetchModules_fallback refHost "c9" Scenario.db Scenario.viewer0).
  - discriminate.
  - intros m [<- | []]. discriminate.
Defined.

(** C7, counterexample: the request for course c9 fires the fallback and
    the request for course c1 does not, and the two leave the very same
    state. *)
Lemma fallback_not_reported :
  fallbackFired refHost student (Some "c9") Scenario.db = true /\
  fallbackFired refHost student (Some "c1") Scenario.db = false /\
  fetchModules refHost student (Some "c9") Scenario.db Scenario.viewer0
  = fetchModules refHost student (Some "c1") Scenario.db Scenario.viewer0.
Proof.
  repeat split.
Qed.

Lemma processTimestamp_fallback (host : Host) (v : JsValue) :
  unrecognisedTimestamp v = true ->
  processTimestamp host v = Normal (Time (now host)).
Proof.
  unfold unrecognisedTimestamp, processTimestamp. intros H.
  destruct (truthy v) eqn:Htruthy; simpl in *; [| reflexivity].
  destruct v as [| | b | n | s | t | [| | r] sec]; simpl in *;
    try discriminate; try reflexivity;
    apply negb_true_iff in H; rewrite H; reflexivity.
Qed.

Lemma processTimestamp_returns (host : Host) (v : JsValue) :
  toDateReturnsDate v = true -> exists d, processTimestamp host v = Normal d.
Proof.
  unfold processTimestamp. intros H.
  destruct (truthy v); simpl; [| eexists; reflexivity].
  destruct v as [| | b | n | s | t | [| | [[| ms] | |]] sec]; simpl in *;
    try discriminate; try (eexists; reflexivity);
    destruct (truthyNum sec); eexists; reflexivity.
Qed.

Lemma unrecognised_unsupported (v : JsValue) :
  unrecognisedTimestamp v = true -> isString v = false ->
  unsupportedType v = true.
Proof.
  destruct v as [| | b | n | s | t | [| | r] sec]; simpl;
    intros Hun Hstr; try reflexivity; discriminate.
Qed.

Lemma toDateReturnsDate_jsOr (a b : JsValue) :
  toDateReturnsDate a = true -> toDateReturnsDate b = true ->
  toDateReturnsDate (jsOr a b) = true.
Proof.
  unfold jsOr. destruct (truthy a); auto.
Qed.

Lemma adaptMaterial_timestamps (host : Host) (moduleId : string)
  (d : MaterialDoc.t) :
  storedTimestamps d ->
  exists m, adaptMaterial host moduleId d = Normal m /\ timestampsOf host d m.
Proof.
  intros (Hc & Hu & Hup). unfold adaptMaterial, timestampsOf.
  destruct (processTimestamp_returns host
              (jsOr (MaterialDoc.createdAt d) (MaterialDoc.uploadedAt d)))
    as [created Hcreated]; [apply toDateReturnsDate_jsOr; assumption |].
  destruct (processTimestamp_returns host
              (jsOr (MaterialDoc.updatedAt d) (MaterialDoc.uploadedAt d)))
    as [updated Hupdated]; [apply toDateReturnsDate_jsOr; assumption |].
  rewrite Hcreated, Hupdated. simpl.
  eexists. split; [reflexivity |]. simpl.
  split; [reflexivity |]. split; [reflexivity |]. split; [reflexivity |].
  split; intros Hun; apply (processTimestamp_fallback host) in Hun; congruence.
Qed.

Lemma mapM_adaptMaterial (host : Host) (moduleId : string)
  (docs : list MaterialDoc.t) :
  Forall storedTimestamps docs ->
  exists l, mapM (adaptMaterial host moduleId) docs = Normal l /\
            Forall2 (timestampsOf host) docs l.
Proof.
  induction 1 as [| d ds Hd _ (l & Hl & Hall)]; simpl.
  - exists []. split; [reflexivity | constructor].
  - destruct (adaptMaterial_timestamps host moduleId d Hd) as (m & Hm & Ht).
    rewrite Hm, Hl. simpl. exists (m :: l).
    split; [reflexivity | constructor; assumption].
Qed.

(** C10 (as amended): every material record the lookup returns carries a
    Date as createdAt and as updatedAt, and the lookup reports no error; a
    timestamp that is missing or of an unrecognised shape becomes the current
    time, where the normaliser of schedule dates returns null for such a
    value that is not a string; a timestamp of a recognised shape is
    converted as it is. *)
Theorem materials_timestamps (host : Host) (moduleId : string) (db : Store)
  (st : ViewerState)
  (Hstored : Forall storedTimestamps (db_materials db)) :
  viewer_notifications (fetchMaterials host moduleId db st)
    = viewer_notifications st /\
  Forall2 (timestampsOf host)
    (whereModuleId moduleId (db_materials db))
    (materials (fetchMaterials host moduleId db st)) /\
  (forall v, unrecognisedTimestamp v = true -> isString v = false ->
     processTimestamp host v = Normal (Time (now host)) /\
     parseDateToISO host v = Normal None).
Proof.
  assert (Hdocs : Forall storedTimestamps
                    (whereModuleId moduleId (db_materials db))).
  { rewrite Forall_forall in Hstored |- *. intros d Hd.
    apply Hstored. unfold whereModuleId in Hd.
    apply filter_In in Hd. tauto. }
  destruct (mapM_adaptMaterial host moduleId _ Hdocs) as (l & Hl & Hall).
  unfold fetchMaterials, fetchMaterials_try.
  destruct (whereModuleId moduleId (db_materials db)) as [| d ds] eqn:Hq.
  - simpl. split; [reflexivity |]. split; [constructor |].
    intros v Hun Hstr. split.
    + apply processTimestamp_fallback; assumption.
    + apply parseDateToISO_unsupported.
      apply unrecognised_unsupported; assumption.
  - cbn [isEmpty]. rewrite Hl. simpl.
    split; [reflexivity |]. split; [exact Hall |].
    intros v Hun Hstr. split.
    + apply processTimestamp_fallback; assumption.
    + apply parseDateToISO_unsupported.
      apply unrecognised_unsupported; assumption.
Qed.

Lemma materials_timestamps_witness :
  map Material.createdAt
      (materials (fetchMaterials refHost "m1" Scenario.dbMaterials
                    Scenario.viewer0))
  = [Invalid; Time (now refHost)] /\
  Forall2 (timestampsOf refHost)
    (whereModuleId "m1" (db_materials Scenario.dbMaterials))
    (materials (fetchMaterials refHost "m1" Scenario.dbMaterials
                  Scenario.viewer0)).
Proof.
  split; [reflexivity |].
  apply (materials_timestamps refHost "m1" Scenario.dbMaterials Scenario.viewer0).
  repeat constructor.
Defined.

(** C10, counterexample: the material mat1, whose createdAt is a map with
    seconds beyond the range of Date, is returned with an Invalid Date as
    createdAt, and no error is reported. *)
Lemma material_invalid_date :
  map (fun m => (Material.id m, isValidDate (Material.createdAt m)))
      (materials (fetchMaterials refHost "m1" Scenario.dbMaterials
                    Scenario.viewer0))
  = [("mat1", false); ("mat2", true)] /\
  viewer_notifications (fetchMaterials refHost "m1" Scenario.dbMaterials
                          Scenario.viewer0) = [].
Proof.
  split; reflexivity.
Qed.


(* ------------------------------------------------------------------ *)
(** ** Facts about strings and about ISO dates *)

Lemma lacks_app (c : ascii) (a b : string) :
  lacks c (a ++ b) = lacks c a && lacks c b.
Proof.
  induction a as [| x a IH]; simpl.
  - reflexivity.
  - rewrite IH. apply andb_assoc.
Qed.

Lemma split_lacks (c : ascii) (s : string) :
  lacks c s = true -> split c s = [s].
Proof.
  induction s as [| x s IH]; simpl; intros H.
  - reflexivity.
  - apply andb_true_iff in H as [Hx Hs].
    apply negb_true_iff in Hx. rewrite Hx, (IH Hs). reflexivity.
Qed.

Lemma split_app (c : ascii) (a b : string) :
  lacks c a = true -> split c (a ++ String c b) = a :: split c b.
Proof.
  induction a as [| x a IH]; simpl; intros H.
  - rewrite Ascii.eqb_refl. reflexivity.
  - apply andb_true_iff in H as [Hx Ha].
    apply negb_true_iff in Hx. rewrite Hx, (IH Ha). reflexivity.
Qed.

Lemma digit_is_digit (n : Z) :
  In (digit n) ["0"; "1"; "2"; "3"; "4"; "5"; "6"; "7"; "8"; "9"]%char.
Proof.
  unfold digit.
  pose proof (Z.mod_pos_bound n 10 ltac:(lia)) as Hr.
  remember (n mod 10) as r eqn:Er. clear Er.
  assert (Hc : r = 0 \/ r = 1 \/ r = 2 \/ r = 3 \/ r = 4 \/ r = 5 \/ r = 6
               \/ r = 7 \/ r = 8 \/ r = 9) by lia.
  repeat (destruct Hc as [-> | Hc]; [simpl; tauto |]).
  subst r. simpl. tauto.
Qed.

Lemma digit_differs (n : Z) (c : ascii) :
  c = "T"%char \/ c = "-"%char -> Ascii.eqb (digit n) c = false.
Proof.
  intros Hc. pose proof (digit_is_digit n) as Hd.
  simpl in Hd.
  repeat (destruct Hd as [<- | Hd]; [destruct Hc as [-> | ->]; reflexivity |]).
  contradiction.
Qed.

Lemma pad2_lacks (n : Z) (c : ascii) :
  c = "T"%char \/ c = "-"%char -> lacks c (pad2 n) = true.
Proof.
  intros Hc. unfold pad2. cbn [lacks].
  rewrite !(digit_differs _ c Hc). reflexivity.
Qed.

Lemma pad4_lacks (n : Z) (c : ascii) :
  c = "T"%char \/ c = "-"%char -> lacks c (pad4 n) = true.
Proof.
  intros Hc. unfold pad4, pad3, pad2. cbn [lacks].
  rewrite !(digit_differs _ c Hc). reflexivity.
Qed.

Lemma pad6_lacks (n : Z) (c : ascii) :
  c = "T"%char \/ c = "-"%char -> lacks c (pad6 n) = true.
Proof.
  intros Hc. unfold pad6, pad4, pad3, pad2. cbn [lacks].
  rewrite !(digit_differs _ c Hc). reflexivity.
Qed.

Lemma isoYear_lacks_T (y : Z) : lacks "T" (isoYear y) = true.
Proof.
  unfold isoYear.
  destruct ((0 <=? y) && (y <=? 9999)); [apply pad4_lacks; auto |].
  destruct (y <? 0); cbn [lacks Ascii.eqb Bool.eqb negb andb];
    apply pad6_lacks; auto.
Qed.

Lemma isoYear_lacks_hyphen (y : Z) :
  0 <= y -> lacks "-" (isoYear y) = true.
Proof.
  intros Hy. unfold isoYear.
  destruct ((0 <=? y) && (y <=? 9999)); [apply pad4_lacks; auto |].
  destruct (y <? 0) eqn:Hneg; [apply Z.ltb_lt in Hneg; lia |].
  cbn [lacks Ascii.eqb Bool.eqb negb andb]. apply pad6_lacks; auto.
Qed.

Lemma isoDate_lacks_T (t : Z) : lacks "T" (isoDate t) = true.
Proof.
  unfold isoDate. destruct (civilFromDays (Day t)) as [[y m] d].
  rewrite !lacks_app, isoYear_lacks_T, !pad2_lacks by auto. reflexivity.
Qed.

(** The date portion of an ISO string is its date. *)
Lemma beforeT_isoString (t : Z) : beforeT (isoString t) = isoDate t.
Proof.
  unfold beforeT, isoString.
  change (isoDate t ++ "T" ++ isoTime t ++ "Z")
    with (isoDate t ++ String "T" (isoTime t ++ "Z")).
  rewrite split_app by apply isoDate_lacks_T. reflexivity.
Qed.

Lemma beforeT_isoDate (t : Z) : beforeT (isoDate t) = isoDate t.
Proof.
  unfold beforeT. rewrite split_lacks by apply isoDate_lacks_T. reflexivity.
Qed.

Lemma split_isoDate (t : Z) :
  0 <= yearOf t -> List.length (split "-" (isoDate t)) = 3%nat.
Proof.
  unfold yearOf, isoDate. destruct (civilFromDays (Day t)) as [[y m] d].
  cbn [fst]. intros Hy.
  change (isoYear y ++ "-" ++ pad2 m ++ "-" ++ pad2 d)
    with (isoYear y ++ String "-" (pad2 m ++ String "-" (pad2 d))).
  rewrite split_app by (apply isoYear_lacks_hyphen; exact Hy).
  rewrite split_app by (apply pad2_lacks; auto).
  rewrite split_lacks by (apply pad2_lacks; auto).
  reflexivity.
Qed.

Lemma yearOf_nonneg (t : Z) : marchOfYearZero <= t -> 0 <= yearOf t.
Proof.
  unfold marchOfYearZero, yearOf, civilFromDays, Day, msPerDay. intros Ht.
  cbv zeta.
  match goal with
  | |- 0 <= fst (fst (if ?b then _ else _, _, _)) => destruct b
  end; simpl; Z.to_euclidean_division_equations; lia.
Qed.

Lemma isoDate_same_day (a b : Z) : Day a = Day b -> isoDate a = isoDate b.
Proof.
  unfold isoDate. intros ->. reflexivity.
Qed.

(* ------------------------------------------------------------------ *)
(** ** Dates: processing, time zone, today's classes, labels *)

(** X1: a timestamp whose [toDate] gives a date not before year 0, as every
    Firestore Timestamp does, is replaced by [fetchClassSchedules] with its
    ISO date; the normaliser gives that same date for the timestamp and for
    the string that replaces it, and processing the string again changes
    nothing. *)
Theorem normalise_commutes_with_processing (host : Host) (t : Z)
  (sec : option JsNumber) (Ht : marchOfYearZero <= t) :
  formatDate (JObject (ToDateFn (RetDate (Time t))) sec)
    = Normal (JString (isoDate t)) /\
  parseDateToISO host (JObject (ToDateFn (RetDate (Time t))) sec)
    = Normal (Some (isoDate t)) /\
  parseDateToISO host (JString (isoDate t)) = Normal (Some (isoDate t)) /\
  formatDate (JString (isoDate t)) = Normal (JString (isoDate t)).
Proof.
  split; [| split; [| split]].
  - unfold formatDate. cbn [callToDate bind onDate toISOString].
    rewrite beforeT_isoString. reflexivity.
  - unfold parseDateToISO. cbn [callToDate bind onDate toISOString try_catch].
    rewrite beforeT_isoString. reflexivity.
  - unfold parseDateToISO. rewrite beforeT_isoDate.
    rewrite (split_isoDate t (yearOf_nonneg t Ht)). reflexivity.
  - reflexivity.
Qed.

Lemma normalise_commutes_with_processing_witness :
  formatDate (Timestamp 1710028800 0) = Normal (JString "2024-03-10") /\
  parseDateToISO refHost (JString "2024-03-10") = Normal (Some "2024-03-10").
Proof.
  assert (Ht : marchOfYearZero <= 1710028800000) by (vm_compute; discriminate).
  destruct (normalise_commutes_with_processing refHost 1710028800000
              (Some (Num 1710028800)) Ht) as (Hformat & _ & Hparse & _).
  split; [exact Hformat | exact Hparse].
Defined.

(** X2: the date the dashboard takes for today is the UTC date of local
    midnight.  When the offset of local time in force at that midnight is
    zero or west of Greenwich, it is the local calendar date; when that
    offset is east of Greenwich, it is the day before the local calendar
    date. *)
Theorem todayFormatted_timezone (host : Host) :
  let midnight := Day (LocalTime host (now host)) * msPerDay in
  (- msPerDay < LocalTZA host midnight false <= 0 ->
   todayFormatted host = isoDate (LocalTime host (now host))) /\
  (0 < LocalTZA host midnight false <= msPerDay ->
   todayFormatted host = isoDate (LocalTime host (now host) - msPerDay)).
Proof.
  cbv zeta. unfold todayFormatted. rewrite beforeT_isoString.
  unfold today, UTC.
  generalize (LocalTime host (now host)). intros local.
  generalize (LocalTZA host (Day local * msPerDay) false). intros offset.
  split; intros Hz; apply isoDate_same_day;
    unfold Day, msPerDay in *;
    Z.to_euclidean_division_equations; lia.
Qed.

Lemma todayFormatted_timezone_witness :
  (isoDate (LocalTime colomboHost (now colomboHost)) = "2024-03-10" /\
   todayFormatted colomboHost = "2024-03-09") /\
  (isoDate (LocalTime londonHost (now londonHost)) = "2024-03-31" /\
   todayFormatted londonHost = "2024-03-31").
Proof.
  destruct (todayFormatted_timezone colomboHost) as [_ Heast].
  destruct (todayFormatted_timezone londonHost) as [Hwest _].
  split; (split; [reflexivity |]).
  - rewrite Heast; [reflexivity |].
    split; vm_compute; [reflexivity | discriminate].
  - rewrite Hwest; [reflexivity |].
    split; vm_compute; [reflexivity | discriminate].
Defined.

Lemma isToday_iff (host : Host) (s : Schedule.t) :
  isToday host s = true <->
  parseDateToISO host (Schedule.date s) = Normal (Some (todayFormatted host)).
Proof.
  unfold isToday.
  destruct (parseDateToISO_returns host (Schedule.date s)) as [r Hr].
  rewrite Hr. cbn [bind catchTo]. destruct r as [d |].
  - rewrite String.eqb_eq. split; [intros -> | intros [= ->]]; reflexivity.
  - split; discriminate.
Qed.

Lemma startTime_sorted (host : Host) (l : list Schedule.t) :
  ConsistentComparator (localeCompare host) ->
  StronglySorted (startTimeLe host)
    (sortPure (fun a b => Num (localeCompare host (Schedule.startTime a)
                                             (Schedule.startTime b))) l).
Proof.
  intros Hlc.
  apply (sortPure_sorted _ (fun _ => True)).
  - intros a b _ _ H. exact H.
  - intros a b _ _ H. unfold startTimeLe.
    apply (cmp_total _ Hlc) in H. lia.
  - intros a b c _ _ _. unfold startTimeLe. apply (cmp_trans _ Hlc).
  - apply Forall_forall. intros; exact I.
Qed.

(** X3: today's classes come back ordered by start time; each of them is a
    schedule of the list whose date normalises to today's date, or else the
    placeholder, shown only when no schedule does; and every schedule whose
    date normalises to today's date is among them.  A schedule whose date the
    normaliser rejects is never shown. *)
Theorem todaysClasses_content (host : Host) (st : DashboardState)
  (Hlc : ConsistentComparator (localeCompare host)) :
  exists r,
    todaysClasses host st = Normal r /\
    StronglySorted (startTimeLe host) r /\
    (forall s, In s r ->
       (In s (schedules st) /\
        parseDateToISO host (Schedule.date s)
          = Normal (Some (todayFormatted host)))
       \/ (projectToday host (schedules st) = [] /\
           exists c, hd_error (enrolledCourses st) = Some c /\
                     s = demoClass host c)) /\
    (forall s, In s (schedules st) ->
       parseDateToISO host (Schedule.date s)
         = Normal (Some (todayFormatted host)) ->
       In s r).
Proof.
  unfold todaysClasses. rewrite todaysClasses_sorted.
  eexists. split; [reflexivity |].
  split; [apply startTime_sorted; exact Hlc |].
  set (key := fun a b : Schedule.t =>
                Num (localeCompare host (Schedule.startTime a)
                                        (Schedule.startTime b))).
  assert (Hin : forall s, In s (projectToday host (schedules st)) <->
                          In s (schedules st) /\
                          parseDateToISO host (Schedule.date s)
                            = Normal (Some (todayFormatted host))).
  { intros s. unfold projectToday. rewrite filter_In, isToday_iff. tauto. }
  destruct (projectToday host (schedules st)) as [| p ps] eqn:Hp.
  - destruct (enrolledCourses st) as [| c cs]; cbn [isEmpty andb negb].
    + split; [intros s [] |]. intros s Hs Hd.
      apply (proj2 (Hin s)). split; assumption.
    + split.
      * intros s Hs. right. split; [reflexivity |].
        exists c. split; [reflexivity |].
        cbn in Hs. destruct Hs as [<- | []]. reflexivity.
      * intros s Hs Hd. exfalso.
        apply (proj2 (Hin s)). split; assumption.
  - cbn [isEmpty andb]. split.
    + intros s Hs. left. apply Hin.
      apply (Permutation_in _ (Permutation_sym (sortPure_perm key (p :: ps)))).
      exact Hs.
    + intros s Hs Hd.
      apply (Permutation_in _ (sortPure_perm key (p :: ps))).
      apply Hin. split; assumption.
Qed.

Lemma todaysClasses_content_witness :
  exists r,
    todaysClasses refHost
      {| schedules := [Scenario.sch1; Scenario.numeric; Scenario.sch2];
         schedulesLoading := false;
         enrolledCourses := [];
         notifications := [] |} = Normal r /\
    StronglySorted (startTimeLe refHost) r /\
    In Scenario.sch1 r.
Proof.
  destruct (todaysClasses_content refHost
              {| schedules := [Scenario.sch1; Scenario.numeric; Scenario.sch2];
                 schedulesLoading := false;
                 enrolledCourses := [];
                 notifications := [] |} codeUnitCompare_consistent)
    as (r & Hr & Hsorted & _ & Hall).
  exists r. split; [exact Hr |]. split; [exact Hsorted |].
  apply Hall; [left; reflexivity | reflexivity].
Defined.

(** X4: the date label of a row of the classes section is "Unknown date",
    or else the formatting of the very instant by which the schedule list
    was sorted; it is "Unknown date" for every date of an unsupported type
    and for every date that gives no instant, and producing it never raises. *)
Theorem classDateLabel_instant (formatLong : Z -> string) (host : Host)
  (v : JsValue) :
  (classDateLabel formatLong host v = "Unknown date" \/
   exists t, dateKey host v = Num t /\
             classDateLabel formatLong host v = formatLong t) /\
  (unsupportedType v = true ->
   classDateLabel formatLong host v = "Unknown date") /\
  (dateKey host v = NaN ->
   classDateLabel formatLong host v = "Unknown date").
Proof.
  unfold classDateLabel, dateKey, getDateValue.
  destruct v as [| | b | n | s | t | [| | [t | |]] sec];
    cbn [bind catchTo try_catch callToDate onDate unsupportedType];
    try (split; [left; reflexivity | split; intros; reflexivity]).
  - destruct (DateParse host s) as [| ms]; cbn [getTime].
    + split; [left; reflexivity | split; intros; reflexivity].
    + split; [right; exists ms; split; reflexivity |].
      split; intros H; discriminate H.
  - destruct t as [| ms]; cbn [getTime].
    + split; [left; reflexivity | split; intros; reflexivity].
    + split; [right; exists ms; split; reflexivity |].
      split; intros H; discriminate H.
  - destruct t as [| ms]; cbn [getTime].
    + split; [left; reflexivity | split; intros; reflexivity].
    + split; [right; exists ms; split; reflexivity |].
      split; intros H; discriminate H.
Qed.

(* ------------------------------------------------------------------ *)
(** ** The list of enrolled courses and the two schedule fetches *)

Lemma getCourse_hasCourseDoc (db : Store) (e : Enrollment.t) :
  hasCourseDoc db e = true <->
  exists doc, getCourse db (Enrollment.courseId e) = Some doc.
Proof.
  unfold hasCourseDoc, getCourse.
  induction (db_courses db) as [| c cs IH]; simpl.
  - split; [discriminate | intros [doc H]; discriminate].
  - destruct (Course.id c =? Enrollment.courseId e)%string; simpl.
    + split; [intros _; exists c; reflexivity | reflexivity].
    + exact IH.
Qed.

Lemma getCourse_found (db : Store) (courseId : string) (doc : Course.t) :
  getCourse db courseId = Some doc ->
  In doc (db_courses db) /\ Course.id doc = courseId.
Proof.
  unfold getCourse. intros H. apply find_some in H as [Hin Heq].
  apply String.eqb_eq in Heq. auto.
Qed.

Lemma validCourses_enrollments (db : Store) (l : list Enrollment.t) :
  map ec_enrollment (notNull (map (courseWithEnrollment db) l))
  = filter (hasCourseDoc db) l.
Proof.
  induction l as [| e l IH]; simpl; [reflexivity |].
  unfold courseWithEnrollment at 1.
  destruct (getCourse db (Enrollment.courseId e)) as [doc |] eqn:Hdoc.
  - assert (hasCourseDoc db e = true) as ->
      by (apply getCourse_hasCourseDoc; exists doc; exact Hdoc).
    simpl. rewrite IH. reflexivity.
  - assert (hasCourseDoc db e = false) as ->.
    { destruct (hasCourseDoc db e) eqn:Hh; [| reflexivity].
      apply getCourse_hasCourseDoc in Hh as [doc Hh]. congruence. }
    exact IH.
Qed.

Lemma validCourses_ids (db : Store) (l : list Enrollment.t) :
  map (fun ec => Course.id (ec_course ec))
      (notNull (map (courseWithEnrollment db) l))
  = map Enrollment.courseId (filter (hasCourseDoc db) l).
Proof.
  induction l as [| e l IH]; simpl; [reflexivity |].
  unfold courseWithEnrollment at 1.
  destruct (getCourse db (Enrollment.courseId e)) as [doc |] eqn:Hdoc.
  - assert (hasCourseDoc db e = true) as ->
      by (apply getCourse_hasCourseDoc; exists doc; exact Hdoc).
    simpl. rewrite IH. reflexivity.
  - assert (hasCourseDoc db e = false) as ->.
    { destruct (hasCourseDoc db e) eqn:Hh; [| reflexivity].
      apply getCourse_hasCourseDoc in Hh as [doc Hh]. congruence. }
    exact IH.
Qed.

Lemma validCourses_documents (db : Store) (l : list Enrollment.t) :
  Forall (fun ec =>
            exists doc,
              In doc (db_courses db) /\
              Course.id doc = Enrollment.courseId (ec_enrollment ec) /\
              Course.id (ec_course ec) = Course.id doc /\
              Course.title (ec_course ec) = Course.title doc /\
              Course.modules (ec_course ec) = Course.modules doc)
         (notNull (map (courseWithEnrollment db) l)).
Proof.
  induction l as [| e l IH]; simpl; [constructor |].
  unfold courseWithEnrollment at 1.
  destruct (getCourse db (Enrollment.courseId e)) as [doc |] eqn:Hdoc;
    [| exact IH].
  constructor; [| exact IH].
  apply getCourse_found in Hdoc as [Hin Hid].
  exists doc. simpl. auto.
Qed.

Lemma filter_all {A : Type} (f : A -> bool) (l : list A) :
  Forall (fun x => f x = true) l -> filter f l = l.
Proof.
  induction 1 as [| x xs Hx _ IH]; simpl; [reflexivity |].
  rewrite Hx, IH. reflexivity.
Qed.

Lemma filter_none {A : Type} (f : A -> bool) (l : list A) :
  Forall (fun x => f x = false) l -> filter f l = [].
Proof.
  induction 1 as [| x xs Hx _ IH]; simpl; [reflexivity |].
  rewrite Hx. exact IH.
Qed.

Lemma fetchEnrolledCourses_valid (db : Store) (uid : string) (st : CoursesState) :
  uid <> "" -> whereStudentId uid (db_enrollments db) <> [] ->
  cs_enrolledCourses (fetchEnrolledCourses db uid st) = validCourses db uid.
Proof.
  intros Huid Hsome. unfold fetchEnrolledCourses.
  apply String.eqb_neq in Huid. rewrite Huid.
  destruct (whereStudentId uid (db_enrollments db)); [congruence |].
  reflexivity.
Qed.

(** X5: for a student with enrollments, the listed courses are, in order and
    one per enrollment, the student's enrollments whose course has a
    document; each entry carries the title and the modules of that document;
    enrollments that name a missing course are dropped.  The ids listed are
    among the course ids the schedule join uses, and are those ids when every
    enrollment names an existing course. *)
Theorem fetchEnrolledCourses_lists (db : Store) (uid : string)
  (st : CoursesState)
  (Huid : uid <> "")
  (Hdocs : enrollmentsNameDocs db uid)
  (Hsome : whereStudentId uid (db_enrollments db) <> []) :
  map ec_enrollment (cs_enrolledCourses (fetchEnrolledCourses db uid st))
    = filter (hasCourseDoc db) (whereStudentId uid (db_enrollments db)) /\
  Forall (fun ec =>
            exists doc,
              In doc (db_courses db) /\
              Course.id doc = Enrollment.courseId (ec_enrollment ec) /\
              Course.id (ec_course ec) = Course.id doc /\
              Course.title (ec_course ec) = Course.title doc /\
              Course.modules (ec_course ec) = Course.modules doc)
         (cs_enrolledCourses (fetchEnrolledCourses db uid st)) /\
  incl (map Course.id (dashboardCourses (fetchEnrolledCourses db uid st)))
       (enrolledCourseIds db uid) /\
  (Forall (fun e => hasCourseDoc db e = true)
          (whereStudentId uid (db_enrollments db)) ->
   map Course.id (dashboardCourses (fetchEnrolledCourses db uid st))
   = enrolledCourseIds db uid).
Proof.
  unfold dashboardCourses.
  rewrite (fetchEnrolledCourses_valid db uid st Huid Hsome).
  unfold validCourses. rewrite map_map.
  split; [apply validCourses_enrollments |].
  split; [apply validCourses_documents |].
  rewrite validCourses_ids. unfold enrolledCourseIds. split.
  - intros c Hc. apply in_map_iff in Hc as (e & <- & He).
    apply filter_In in He as [He _]. apply in_map. exact He.
  - intros Hall. rewrite (filter_all _ _ Hall). reflexivity.
Qed.

Lemma fetchEnrolledCourses_lists_witness :
  map ec_enrollment
      (cs_enrolledCourses
         (fetchEnrolledCourses Sample.dbCourses "s1" Sample.courses0))
  = [Scenario.e1].
Proof.
  assert (Huid : "s1" <> "") by discriminate.
  assert (Hdocs : enrollmentsNameDocs Sample.dbCourses "s1")
    by (repeat constructor).
  assert (Hsome : whereStudentId "s1" (db_enrollments Sample.dbCourses) <> [])
    by discriminate.
  destruct (fetchEnrolledCourses_lists Sample.dbCourses "s1"
              Sample.courses0 Huid Hdocs Hsome) as (Hlist & _).
  rewrite Hlist. reflexivity.
Defined.

(** X6: a student without any enrollment keeps the list that was loaded
    before, which is not cleared; a student whose enrollments all name
    missing courses gets the empty list; neither case adds a notification. *)
Theorem fetchEnrolledCourses_nothing_found (db : Store) (uid : string)
  (st : CoursesState) (Huid : uid <> "")
  (Hdocs : enrollmentsNameDocs db uid)
  (Hnone : Forall (fun e => hasCourseDoc db e = false)
                  (whereStudentId uid (db_enrollments db))) :
  cs_notifications (fetchEnrolledCourses db uid st) = cs_notifications st /\
  coursesLoading (fetchEnrolledCourses db uid st) = false /\
  cs_enrolledCourses (fetchEnrolledCourses db uid st)
  = if isEmpty (whereStudentId uid (db_enrollments db))
    then cs_enrolledCourses st else [].
Proof.
  assert (Hvalid : validCourses db uid = []).
  { apply (map_eq_nil ec_enrollment).
    unfold validCourses. rewrite validCourses_enrollments.
    apply filter_none. exact Hnone. }
  unfold fetchEnrolledCourses.
  apply String.eqb_neq in Huid. rewrite Huid.
  destruct (whereStudentId uid (db_enrollments db)) as [| e es];
    cbn [isEmpty].
  - repeat split.
  - rewrite Hvalid. repeat split.
Qed.

Lemma fetchEnrolledCourses_nothing_found_witness :
  cs_enrolledCourses
    (fetchEnrolledCourses Scenario.dbOrphan "s1" Sample.coursesLoaded) = [] /\
  cs_enrolledCourses
    (fetchEnrolledCourses Scenario.dbOrphan "s2" Sample.coursesLoaded)
  = cs_enrolledCourses Sample.coursesLoaded.
Proof.
  split.
  - apply (fetchEnrolledCourses_nothing_found Scenario.dbOrphan "s1"
             Sample.coursesLoaded); [discriminate | |];
      repeat constructor.
  - apply (fetchEnrolledCourses_nothing_found Scenario.dbOrphan "s2"
             Sample.coursesLoaded); [discriminate | |]; constructor.
Defined.

(** X7: the two fetches that set the schedule list do not commute.  When
    [fetchStudentSchedules] finishes last, or when [fetchClassSchedules]
    fails after it, the list is the whole collection, unfiltered: every
    schedule document is listed whether or not it is associated with the
    student.  When [fetchClassSchedules] succeeds last, its list stands. *)
Theorem schedule_fetches_do_not_commute (host : Host) (db : Store)
  (uid : string) (st : DashboardState) :
  schedules (fetchStudentSchedules db (fetchClassSchedules host db uid st))
    = db_schedules db /\
  (forall e, fetchClassSchedules_try host db uid = Throw e ->
     schedules (fetchClassSchedules host db uid (fetchStudentSchedules db st))
     = db_schedules db) /\
  (forall l, fetchClassSchedules_try host db uid = Normal l ->
     schedules (fetchClassSchedules host db uid (fetchStudentSchedules db st))
     = l) /\
  schedules (fetchStudentSchedules Scenario.db
               (fetchClassSchedules host Scenario.db "s1" st))
    = [Scenario.sch1; Scenario.sch2] /\
  schedules (fetchClassSchedules host Scenario.db "s1"
               (fetchStudentSchedules Scenario.db st))
    = [Scenario.sch1].
Proof.
  split; [reflexivity |].
  split; [intros e He; unfold fetchClassSchedules; rewrite He; reflexivity |].
  split; [intros l Hl; unfold fetchClassSchedules; rewrite Hl; reflexivity |].
  split; reflexivity.
Qed.

Lemma processed_in (docs all : list Schedule.t) (s : Schedule.t) :
  mapM processSchedule docs = Normal all -> In s all ->
  exists d, In d docs /\ processSchedule d = Normal s.
Proof.
  intros Hall Hs. apply mapM_Normal_inv in Hall.
  induction Hall as [| d x ds xs Hd _ IH]; [contradiction |].
  destruct Hs as [<- | Hs].
  - exists d. split; [left; reflexivity | exact Hd].
  - destruct (IH Hs) as (d' & Hin & Hd'). exists d'. split; [right |]; auto.
Qed.

(** X8: when the collection is not empty, the list that
    [fetchClassSchedules] sets is in chronological order: non-decreasing in
    the instant of the date and then in the start time, provided every date,
    once processed, gives an instant. *)
Theorem fetchClassSchedules_sorted (host : Host) (db : Store) (uid : string)
  (st : DashboardState)
  (Hlc : ConsistentComparator (localeCompare host))
  (Hnonempty : db_schedules db <> [])
  (Hdates : Forall (fun d => toDateReturnsDate (Schedule.date d) = true)
                   (db_schedules db))
  (Hinstants : forall d s, In d (db_schedules db) ->
                 processSchedule d = Normal s -> hasInstant host s) :
  StronglySorted (chronoLe host)
    (schedules (fetchClassSchedules host db uid st)).
Proof.
  destruct (mapM_returns processSchedule (db_schedules db)) as [all Hall].
  { eapply Forall_impl; [| exact Hdates].
    intros d Hd. apply processSchedule_returns. exact Hd. }
  destruct (whereStudentId uid (db_enrollments db)) as [| x xs] eqn:Hen.
  - unfold fetchClassSchedules, fetchClassSchedules_try.
    destruct (db_schedules db); [congruence |].
    rewrite Hen. cbn. constructor.
  - unfold fetchClassSchedules.
    rewrite (fetch_result_nonempty host db uid all);
      [| exact Hnonempty | congruence | exact Hall].
    cbn [schedules].
    apply (sortPure_sorted (compareKey host) (hasInstant host)).
    + apply chronoLe_of_le.
    + intros a b. apply chronoLe_of_gt. exact Hlc.
    + intros a b c _ _ _. apply chronoLe_trans. exact Hlc.
    + apply Forall_forall. intros s Hs. apply filter_In in Hs as [Hs _].
      destruct (processed_in _ _ _ Hall Hs) as (d & Hd & Hp).
      exact (Hinstants d s Hd Hp).
Qed.

Lemma fetchClassSchedules_sorted_witness :
  StronglySorted (chronoLe refHost)
    (schedules (fetchClassSchedules refHost Sample.dbTimetable "s1"
                  Scenario.st0)) /\
  map Schedule.id
      (schedules (fetchClassSchedules refHost Sample.dbTimetable "s1"
                    Scenario.st0))
  = ["schT"; "sch1"; "schB"; "schA"].
Proof.
  split; [| reflexivity].
  apply fetchClassSchedules_sorted.
  - exact codeUnitCompare_consistent.
  - discriminate.
  - repeat constructor.
  - intros d s Hd Hs. cbn in Hd.
    repeat (destruct Hd as [<- | Hd];
            [cbv in Hs; injection Hs as <-; eexists; vm_compute; reflexivity |]).
    contradiction.
Defined.

(* ------------------------------------------------------------------ *)
(** ** The modules and materials that the viewer shows *)

Lemma strOr_nonempty (a : option string) (b : string) :
  b <> "" -> strOr a b <> "".
Proof.
  intros Hb. destruct a as [s |]; simpl; [| exact Hb].
  destruct (s =? "")%string eqn:Hs; [exact Hb |].
  apply String.eqb_neq. exact Hs.
Qed.

Lemma adaptMaterial_fields (host : Host) (moduleId : string)
  (d : MaterialDoc.t) (m : Material.t) :
  adaptMaterial host moduleId d = Normal m ->
  Material.id m = MaterialDoc.id d /\
  Material.moduleId m = strOr (MaterialDoc.moduleId d) moduleId /\
  Material.title m <> "" /\ Material.fileName m <> "" /\
  Material.fileType m <> "".
Proof.
  unfold adaptMaterial.
  destruct (processTimestamp host _) as [created | e]; [| discriminate].
  destruct (processTimestamp host _) as [updated | e]; [| discriminate].
  cbn [bind]. intros [= <-]. cbn.
  repeat split; apply strOr_nonempty; discriminate.
Qed.

Lemma whereModuleId_matches (moduleId : string) (docs : list MaterialDoc.t)
  (d : MaterialDoc.t) :
  In d (whereModuleId moduleId docs) ->
  strOr (MaterialDoc.moduleId d) moduleId = moduleId.
Proof.
  unfold whereModuleId. intros H. apply filter_In in H as [_ H].
  destruct (MaterialDoc.moduleId d) as [x |]; [| discriminate].
  apply String.eqb_eq in H. subst x. simpl.
  destruct (moduleId =? "")%string; reflexivity.
Qed.

Lemma fetchMaterials_list (host : Host) (moduleId : string) (db : Store)
  (st : ViewerState) (l : list Material.t) :
  mapM (adaptMaterial host moduleId) (whereModuleId moduleId (db_materials db))
    = Normal l ->
  materials (fetchMaterials host moduleId db st) = l /\
  viewer_notifications (fetchMaterials host moduleId db st)
    = viewer_notifications st.
Proof.
  unfold fetchMaterials, fetchMaterials_try. intros Hl.
  destruct (whereModuleId moduleId (db_materials db)) as [| d ds].
  - injection Hl as <-. split; reflexivity.
  - cbn [isEmpty]. rewrite Hl. split; reflexivity.
Qed.

Lemma stored_query (moduleId : string) (db : Store) :
  Forall storedTimestamps (db_materials db) ->
  Forall storedTimestamps (whereModuleId moduleId (db_materials db)).
Proof.
  intros H. rewrite Forall_forall in H |- *. intros d Hd.
  apply H. unfold whereModuleId in Hd. apply filter_In in Hd. tauto.
Qed.

Lemma adapted_ids (host : Host) (moduleId : string)
  (ds : list MaterialDoc.t) (ms : list Material.t) :
  Forall2 (fun d m => adaptMaterial host moduleId d = Normal m) ds ms ->
  map Material.id ms = map MaterialDoc.id ds.
Proof.
  induction 1 as [| d m ds ms Hd _ IH]; [reflexivity |].
  simpl. apply adaptMaterial_fields in Hd as (Hid & _).
  rewrite Hid, IH. reflexivity.
Qed.

Lemma adapted_moduleIds (host : Host) (moduleId : string)
  (ds : list MaterialDoc.t) (ms : list Material.t) :
  Forall2 (fun d m => adaptMaterial host moduleId d = Normal m) ds ms ->
  (forall d, In d ds -> strOr (MaterialDoc.moduleId d) moduleId = moduleId) ->
  Forall (fun m => Material.moduleId m = moduleId) ms.
Proof.
  induction 1 as [| d m ds ms Hd _ IH]; intros Hq; constructor.
  - apply adaptMaterial_fields in Hd as (_ & Hm & _).
    rewrite Hm. apply Hq. left. reflexivity.
  - apply IH. intros d' Hd'. apply Hq. right. exact Hd'.
Qed.

(** X9: the materials shown for a module are, in order, the documents whose
    moduleId is that module, each under the id of its document and with
    that moduleId; for a module that no document names the list is empty
    and nothing is reported: there is no fallback to other materials. *)
Theorem fetchMaterials_selects (host : Host) (moduleId : string) (db : Store)
  (st : ViewerState)
  (Hstored : Forall storedTimestamps (db_materials db)) :
  map Material.id (materials (fetchMaterials host moduleId db st))
    = map MaterialDoc.id (whereModuleId moduleId (db_materials db)) /\
  Forall (fun m => Material.moduleId m = moduleId)
         (materials (fetchMaterials host moduleId db st)) /\
  viewer_notifications (fetchMaterials host moduleId db st)
    = viewer_notifications st /\
  ((forall d, In d (db_materials db) ->
              MaterialDoc.moduleId d <> Some moduleId) ->
   materials (fetchMaterials host moduleId db st) = []).
Proof.
  destruct (mapM_adaptMaterial host moduleId _
              (stored_query moduleId db Hstored)) as (l & Hl & _).
  destruct (fetchMaterials_list host moduleId db st l Hl) as [-> ->].
  pose proof (mapM_Normal_inv _ _ _ Hl) as Hall.
  assert (Hq : forall d, In d (whereModuleId moduleId (db_materials db)) ->
                 strOr (MaterialDoc.moduleId d) moduleId = moduleId)
    by (intros d; apply whereModuleId_matches).
  split; [| split; [| split; [reflexivity |]]].
  - exact (adapted_ids host moduleId _ _ Hall).
  - exact (adapted_moduleIds host moduleId _ _ Hall Hq).
  - intros Hnone.
    assert (Hempty : whereModuleId moduleId (db_materials db) = []).
    { unfold whereModuleId. apply filter_none. apply Forall_forall.
      intros d Hd. specialize (Hnone d Hd).
      destruct (MaterialDoc.moduleId d) as [x |]; [| reflexivity].
      apply String.eqb_neq. congruence. }
    rewrite Hempty in Hall. inversion Hall. reflexivity.
Qed.

Lemma fetchMaterials_selects_witness :
  map Material.id
      (materials (fetchMaterials refHost "m1" Sample.dbShelf Scenario.viewer0))
  = ["mat1"] /\
  materials (fetchMaterials refHost "m3" Sample.dbShelf Scenario.viewer0) = [].
Proof.
  assert (Hstored : Forall storedTimestamps (db_materials Sample.dbShelf))
    by (repeat constructor).
  split.
  - destruct (fetchMaterials_selects refHost "m1" Sample.dbShelf
                Scenario.viewer0 Hstored) as (Hids & _).
    rewrite Hids. reflexivity.
  - destruct (fetchMaterials_selects refHost "m3" Sample.dbShelf
                Scenario.viewer0 Hstored) as (_ & _ & _ & Hnone).
    apply Hnone. intros d Hd. cbn in Hd.
    destruct Hd as [<- | [<- | []]]; discriminate.
Defined.

(** X10: whatever the documents hold, every material shown has a title, a
    file name and a file type that are not empty. *)
Theorem fetchMaterials_defaults (host : Host) (moduleId : string) (db : Store)
  (st : ViewerState) :
  Forall (fun m => Material.title m <> "" /\ Material.fileName m <> "" /\
                   Material.fileType m <> "")
         (materials (fetchMaterials host moduleId db st)).
Proof.
  unfold fetchMaterials, fetchMaterials_try.
  destruct (whereModuleId moduleId (db_materials db)) as [| d ds];
    cbn [isEmpty]; [constructor |].
  destruct (mapM (adaptMaterial host moduleId) (d :: ds)) as [l | e] eqn:Hl;
    cbn [bind materials]; [| constructor].
  apply mapM_Normal_inv in Hl.
  induction Hl as [| x m xs ms Hx _ IH]; constructor; [| exact IH].
  apply adaptMaterial_fields in Hx. tauto.
Qed.

Lemma filteredModules_query (host : Host) (c : string)
  (docs : list ModuleDoc.t) :
  c <> "" ->
  filteredModules c (map (adaptModule host) docs)
  = map (adaptModule host) (whereCourseId c docs).
Proof.
  intros Hc. unfold filteredModules, whereCourseId.
  induction docs as [| d ds IH]; [reflexivity |].
  cbn [map filter]. rewrite IH.
  assert (Heq : (Module_.courseId (adaptModule host d) =? c)%string
                = match ModuleDoc.courseId d with
                  | Some x => (x =? c)%string
                  | None => false
                  end).
  { assert (Hempty : ("" =? c)%string = false)
      by (apply String.eqb_neq; congruence).
    unfold adaptModule. cbn [Module_.courseId]. unfold strOr.
    destruct (ModuleDoc.courseId d) as [x |]; [| exact Hempty].
    destruct (x =? "")%string eqn:Hx; [| reflexivity].
    apply String.eqb_eq in Hx. subst x. reflexivity. }
  rewrite Heq. destruct (match ModuleDoc.courseId d with
                         | Some x => (x =? c)%string
                         | None => false
                         end); reflexivity.
Qed.

Lemma fetchModules_student (host : Host) (c : string) (db : Store)
  (st : ViewerState) :
  c <> "" -> whereCourseId c (db_modules db) <> [] ->
  modules (fetchModules host student (Some c) db st)
  = map (adaptModule host) (whereCourseId c (db_modules db)).
Proof.
  intros Hc Hsome. unfold fetchModules, fetchModules_try.
  cbn [filtersByCourse]. pose proof Hc as Hc'.
  apply String.eqb_neq in Hc'. rewrite Hc'.
  rewrite (filteredModules_query host c _ Hc).
  destruct (whereCourseId c (db_modules db)) as [| d ds]; [congruence |].
  reflexivity.
Qed.

(** X11: when some module has the requested course id, a student sees
    exactly the modules of the module query for that course, in order, and
    no other; the fallback does not fire; and when the student is enrolled
    in the course, every module shown is among the enrolled module ids of
    the schedule join. *)
Theorem fetchModules_filters (host : Host) (c : string) (db : Store)
  (st : ViewerState)
  (Hc : c <> "")
  (Hsome : whereCourseId c (db_modules db) <> []) :
  fallbackFired host student (Some c) db = false /\
  modules (fetchModules host student (Some c) db st)
    = map (adaptModule host) (whereCourseId c (db_modules db)) /\
  Forall (fun m => Module_.courseId m = c)
         (modules (fetchModules host student (Some c) db st)) /\
  (forall uid, In c (enrolledCourseIds db uid) ->
     incl (map Module_.id (modules (fetchModules host student (Some c) db st)))
          (enrolledModuleIds db uid)).
Proof.
  rewrite (fetchModules_student host c db st Hc Hsome).
  split; [| split; [reflexivity | split]].
  - unfold fallbackFired. cbn [filtersByCourse]. pose proof Hc as Hc'.
    apply String.eqb_neq in Hc'. rewrite Hc'.
    rewrite (filteredModules_query host c _ Hc).
    destruct (whereCourseId c (db_modules db)); [congruence | reflexivity].
  - apply Forall_forall. intros m Hm.
    apply in_map_iff in Hm as (d & <- & Hd).
    unfold whereCourseId in Hd. apply filter_In in Hd as [_ Hd].
    cbn. destruct (ModuleDoc.courseId d) as [x |]; [| discriminate].
    apply String.eqb_eq in Hd. subst x. cbn.
    apply String.eqb_neq in Hc. rewrite Hc. reflexivity.
  - intros uid Hin mid Hmid. rewrite map_map in Hmid.
    apply in_map_iff in Hmid as (d & <- & Hd).
    apply In_enrolledModuleIds. exists c, d.
    unfold whereCourseId in Hd. apply filter_In in Hd as [Hd Hcourse].
    destruct (ModuleDoc.courseId d) as [x |] eqn:Hx; [| discriminate].
    apply String.eqb_eq in Hcourse. subst x. auto.
Qed.

Lemma fetchModules_filters_witness :
  map Module_.id
      (modules (fetchModules refHost student (Some "c1") Sample.dbCourses
                  Scenario.viewer0))
  = ["m1"].
Proof.
  assert (Hc : "c1" <> "") by discriminate.
  assert (Hsome : whereCourseId "c1" (db_modules Sample.dbCourses) <> [])
    by discriminate.
  destruct (fetchModules_filters refHost "c1" Sample.dbCourses
              Scenario.viewer0 Hc Hsome) as (_ & Hlist & _).
  rewrite Hlist. reflexivity.
Defined.

(** X12: for every role and every requested course, the list of modules
    shown is empty only when the collection has no module at all. *)
Theorem fetchModules_empty_iff (host : Host) (role : Role)
  (viewingCourseId : option string) (db : Store) (st : ViewerState) :
  modules (fetchModules host role viewingCourseId db st) = [] <->
  db_modules db = [].
Proof.
  unfold fetchModules, fetchModules_try.
  destruct (filtersByCourse role viewingCourseId) as [c |].
  - destruct (filteredModules c (map (adaptModule host) (db_modules db)))
      as [| m ms] eqn:Hf; cbn.
    + split; [apply map_eq_nil | intros ->; reflexivity].
    + split; [discriminate |]. intros Hnil. rewrite Hnil in Hf.
      discriminate Hf.
  - cbn. split; [apply map_eq_nil | intros ->; reflexivity].
Qed.

(* ------------------------------------------------------------------ *)
(** ** Assigning modules to a course *)

Lemma assignCourse_keeps (c : string) (d : ModuleDoc.t) :
  unassigned d = false -> assignCourse c d = d.
Proof.
  unfold assignCourse. intros ->. reflexivity.
Qed.

Lemma assignCourse_assigns (c : string) (d : ModuleDoc.t) :
  c <> "" -> unassigned (assignCourse c d) = false.
Proof.
  intros Hc. unfold assignCourse.
  destruct (unassigned d) eqn:Hd; [| exact Hd].
  unfold unassigned, setCourseId. cbn. apply String.eqb_neq. exact Hc.
Qed.

Lemma map_assignCourse_fixed (c : string) (docs : list ModuleDoc.t) :
  Forall (fun d => unassigned d = false) docs ->
  map (assignCourse c) docs = docs.
Proof.
  induction 1 as [| d ds Hd _ IH]; [reflexivity |].
  cbn [map]. rewrite (assignCourse_keeps c d Hd), IH. reflexivity.
Qed.

(** X13: the update gives the selected course to the modules that have no
    course and leaves every other module, and every other field, as it was;
    with a course id that is not empty no module is left without a course,
    so that any later update, for whatever course, changes nothing; the
    viewer then shows the modules of the updated store. *)
Theorem updateModules_assigns (ignoreUndefinedProperties : bool) (host : Host)
  (role : Role) (c : string) (db : Store) (st : ViewerState) :
  let after :=
    updateModulesWithCourseId ignoreUndefinedProperties host role (Some c)
      db st in
  map ModuleDoc.id (db_modules (fst after)) = map ModuleDoc.id (db_modules db) /\
  Forall2 (fun d d' =>
             (unassigned d = false -> d' = d) /\
             (unassigned d = true -> d' = setCourseId c d))
          (db_modules db) (db_modules (fst after)) /\
  (c <> "" ->
   Forall (fun d => unassigned d = false) (db_modules (fst after)) /\
   forall flag role' c' st',
     fst (updateModulesWithCourseId flag host role' (Some c') (fst after) st')
     = fst after) /\
  snd after = fetchModules host role (Some c) (fst after) st.
Proof.
  cbv zeta. cbn [updateModulesWithCourseId fst snd withModules db_modules].
  split; [| split; [| split; [| reflexivity]]].
  - rewrite map_map. apply map_ext. intros d. unfold assignCourse.
    destruct (unassigned d); reflexivity.
  - induction (db_modules db) as [| d ds IH]; constructor; [| exact IH].
    unfold assignCourse. destruct (unassigned d); split; intros H;
      congruence.
  - intros Hc.
    assert (Hall : Forall (fun d => unassigned d = false)
                          (map (assignCourse c) (db_modules db))).
    { apply Forall_forall. intros d' Hd'.
      apply in_map_iff in Hd' as (d & <- & _).
      apply assignCourse_assigns. exact Hc. }
    split; [exact Hall |].
    intros flag role' c' st'. unfold withModules. cbn [db_modules].
    rewrite (map_assignCourse_fixed c' _ Hall). reflexivity.
Qed.

Lemma enrolled_course_nonempty (db : Store) (uid c : string) :
  enrollmentsNameDocs db uid -> In c (enrolledCourseIds db uid) -> c <> "".
Proof.
  unfold enrollmentsNameDocs, enrolledCourseIds. intros Hdocs Hc.
  apply in_map_iff in Hc as (e & <- & He).
  rewrite Forall_forall in Hdocs. specialize (Hdocs e He).
  unfold isDocId in Hdocs. apply andb_true_iff in Hdocs as [Hne _].
  apply negb_true_iff in Hne. apply String.eqb_neq. exact Hne.
Qed.

(** X14: for a student whose enrollments name courses by document ids, the
    update removes no module from the enrolled module ids of the schedule
    join; and when the student is enrolled in the selected course, every
    module that had no course is among the enrolled module ids afterwards. *)
Theorem updateModules_join (ignoreUndefinedProperties : bool) (host : Host)
  (role : Role) (c : string) (db : Store) (st : ViewerState) (uid : string)
  (Hdocs : enrollmentsNameDocs db uid) :
  let after :=
    fst (updateModulesWithCourseId ignoreUndefinedProperties host role
           (Some c) db st) in
  incl (enrolledModuleIds db uid) (enrolledModuleIds after uid) /\
  (In c (enrolledCourseIds db uid) ->
   forall d, In d (db_modules db) -> unassigned d = true ->
             In (ModuleDoc.id d) (enrolledModuleIds after uid)).
Proof.
  cbv zeta. cbn [updateModulesWithCourseId fst].
  set (db' := withModules db (map (assignCourse c) (db_modules db))).
  assert (Hids : enrolledCourseIds db' uid = enrolledCourseIds db uid)
    by reflexivity.
  split.
  - intros m Hm.
    apply In_enrolledModuleIds in Hm as (c0 & d & Hc0 & Hd & Hcourse & Hid).
    apply In_enrolledModuleIds. exists c0, d. rewrite Hids.
    repeat split; auto.
    unfold db'. cbn [withModules db_modules].
    apply in_map_iff. exists d. split; [| exact Hd].
    apply assignCourse_keeps. unfold unassigned. rewrite Hcourse. cbn.
    apply String.eqb_neq.
    exact (enrolled_course_nonempty db uid c0 Hdocs Hc0).
  - intros Hc d Hd Hun.
    apply In_enrolledModuleIds. exists c, (setCourseId c d). rewrite Hids.
    repeat split; auto.
    unfold db'. cbn [withModules db_modules].
    apply in_map_iff. exists d. split; [| exact Hd].
    unfold assignCourse. rewrite Hun. reflexivity.
Qed.

Lemma updateModules_join_witness :
  enrolledModuleIds Sample.dbUnassigned "s1" = ["m1"] /\
  In "m9"
     (enrolledModuleIds
        (fst (updateModulesWithCourseId false refHost lecturer (Some "c1")
                Sample.dbUnassigned Scenario.viewer0)) "s1").
Proof.
  split; [reflexivity |].
  assert (Hdocs : enrollmentsNameDocs Sample.dbUnassigned "s1")
    by (repeat constructor).
  destruct (updateModules_join false refHost lecturer "c1"
              Sample.dbUnassigned Scenario.viewer0 "s1" Hdocs) as [_ Hnew].
  apply (Hnew (or_introl eq_refl) (Scenario.moduleDoc "m9" None)).
  - right. left. reflexivity.
  - reflexivity.
Defined.

(* ------------------------------------------------------------------ *)
(** ** File icons *)

Lemma prefix_app (a s q : string) :
  String.prefix a s = true -> String.prefix a (s ++ q) = true.
Proof.
  revert s. induction a as [| x a IH]; intros s H;
    [destruct (s ++ q); reflexivity |].
  destruct s as [| y s]; [discriminate |].
  cbn in H |- *. destruct (ascii_dec x y); [apply IH; exact H | discriminate].
Qed.

Lemma includesStr_app_r (sub s q : string) :
  includesStr sub s = true -> includesStr sub (s ++ q) = true.
Proof.
  induction s as [| y s IH]; cbn [includesStr append]; intros H.
  - rewrite orb_false_r in H.
    destruct sub; [| discriminate]. destruct q; reflexivity.
  - apply orb_true_iff in H as [H | H]; apply orb_true_iff.
    + left. exact (prefix_app sub (String y s) q H).
    + right. apply IH. exact H.
Qed.

Lemma includesStr_app_l (sub p s : string) :
  includesStr sub s = true -> includesStr sub (p ++ s) = true.
Proof.
  intros H. induction p as [| x p IH]; [exact H |].
  cbn [includesStr append]. rewrite IH. apply orb_true_r.
Qed.

Lemma includesStr_nonempty (s : string) :
  includesStr "doc" s = true -> (s =? "")%string = false.
Proof.
  destruct s; [discriminate | reflexivity].
Qed.

(** X15: a file type that contains "doc" gets the PDF icon or the Word icon
    and no other; hence every Office Open XML type, whose name contains
    "officedocument", is shown with one of these two: a spreadsheet or a
    presentation of that family never gets the Excel or the slides icon. *)
Theorem getFileIcon_officedocument (p q : string) :
  (forall s, includesStr "doc" s = true ->
     getFileIcon s = "bi bi-file-earmark-pdf" \/
     getFileIcon s = "bi bi-file-earmark-word") /\
  (getFileIcon (p ++ "officedocument" ++ q) = "bi bi-file-earmark-pdf" \/
   getFileIcon (p ++ "officedocument" ++ q) = "bi bi-file-earmark-word") /\
  getFileIcon
    "application/vnd.openxmlformats-officedocument.spreadsheetml.sheet"
    = "bi bi-file-earmark-word" /\
  getFileIcon "application/vnd.ms-excel" = "bi bi-file-earmark-excel".
Proof.
  assert (Hdoc : forall s, includesStr "doc" s = true ->
            getFileIcon s = "bi bi-file-earmark-pdf" \/
            getFileIcon s = "bi bi-file-earmark-word").
  { intros s Hs. unfold getFileIcon.
    rewrite (includesStr_nonempty s Hs), Hs, orb_true_r.
    destruct (includesStr "pdf" s); [left | right]; reflexivity. }
  split; [exact Hdoc |]. split; [| split; reflexivity].
  apply Hdoc. apply includesStr_app_l. apply includesStr_app_r.
  reflexivity.
Qed.

(* ------------------------------------------------------------------ *)
(** ** Notifications *)

Lemma to_int_proper (z : Z) :
  Z.to_int z <> Decimal.Pos Decimal.Nil /\
  Z.to_int z <> Decimal.Neg Decimal.Nil.
Proof.
  destruct z as [| p | p]; simpl; split; try discriminate;
    intros [= H]; exact (DecimalPos.Unsigned.to_uint_nonnil p H).
Qed.

Lemma numberToString_inj (a b : Z) :
  numberToString a = numberToString b -> a = b.
Proof.
  unfold numberToString. intros H.
  apply DecimalZ.to_int_inj.
  destruct (to_int_proper a) as [Ha1 Ha2].
  destruct (to_int_proper b) as [Hb1 Hb2].
  pose proof (NilZero.isi _ Ha1 Ha2) as Ia.
  pose proof (NilZero.isi _ Hb1 Hb2) as Ib.
  rewrite H in Ia. rewrite Ia in Ib. injection Ib as ->. reflexivity.
Qed.

Lemma removeNotification_others (id : string) (l : list Notification.t) :
  Forall (fun n => Notification.id n <> id) l -> removeNotification id l = l.
Proof.
  intros H. unfold removeNotification. apply filter_all.
  eapply Forall_impl; [| exact H].
  intros n Hn. cbn. apply negb_true_iff. apply String.eqb_neq. exact Hn.
Qed.

(** X16: the timer of a notification removes every notification that
    carries its id, which is the millisecond of its creation.  When no
    earlier notification has that id, showing and then expiring restores
    the list; a second notification shown within the same millisecond goes
    with the first; one shown at another millisecond stays. *)
Theorem notification_expiry (t : Z) (message : string)
  (prev : list Notification.t) :
  (Forall (fun n => Notification.id n <> numberToString t) prev ->
   removeNotification (numberToString t) (showNotification t message prev)
   = prev) /\
  (forall second,
     removeNotification (numberToString t)
       (showNotification t second (showNotification t message prev))
     = removeNotification (numberToString t) prev) /\
  (forall t' other, t' <> t ->
     In (Notification.mk (numberToString t') other)
        (removeNotification (numberToString t)
           (showNotification t' other (showNotification t message prev)))).
Proof.
  assert (Hself : forall m,
    negb (Notification.id (Notification.mk (numberToString t) m)
          =? numberToString t)%string = false).
  { intros m. cbn. rewrite String.eqb_refl. reflexivity. }
  unfold removeNotification, showNotification. split; [| split].
  - intros Hprev. rewrite filter_app. cbn [filter]. rewrite Hself.
    rewrite app_nil_r. apply (removeNotification_others _ _ Hprev).
  - intros second. rewrite !filter_app. cbn [filter]. rewrite !Hself.
    rewrite !app_nil_r. reflexivity.
  - intros t' other Hneq. apply filter_In. split.
    + apply in_or_app. right. left. reflexivity.
    + cbn. apply negb_true_iff. apply String.eqb_neq.
      intros Heq. apply Hneq. apply numberToString_inj. exact Heq.
Qed.

(* ------------------------------------------------------------------ *)
(** ** Navigation to the materials *)

(** X17: the Materials entry of the sidebar always opens the materials
    section and touches no other key of the storage; it keeps a course that
    is already selected, adding no notification, and otherwise selects the
    first enrolled course; a second click changes nothing more. *)
Theorem handleMaterialsNavigation_selection (courses : list Course.t)
  (st : NavState) :
  activeSection (handleMaterialsNavigation courses st) = "materials" /\
  (forall k, k <> "viewingCourseId" ->
     localStorage (handleMaterialsNavigation courses st) k
     = localStorage st k) /\
  (noItem (localStorage st "viewingCourseId") = false ->
   localStorage (handleMaterialsNavigation courses st) = localStorage st /\
   nav_notifications (handleMaterialsNavigation courses st)
   = nav_notifications st) /\
  (forall c rest, courses = c :: rest ->
     noItem (localStorage st "viewingCourseId") = true ->
     localStorage (handleMaterialsNavigation courses st) "viewingCourseId"
     = Some (Course.id c)) /\
  (forall c rest, courses = c :: rest -> Course.id c <> "" ->
     handleMaterialsNavigation courses (handleMaterialsNavigation courses st)
     = handleMaterialsNavigation courses st).
Proof.
  unfold handleMaterialsNavigation.
  destruct courses as [| c rest].
  - repeat split; try reflexivity; intros; discriminate.
  - destruct (noItem (localStorage st "viewingCourseId")) eqn:Hno.
    + split; [reflexivity |]. split.
      * intros k Hk. cbn. unfold setItem.
        apply String.eqb_neq in Hk. rewrite Hk. reflexivity.
      * split; [discriminate |]. split.
        -- intros c' rest' [= <- <-] _. reflexivity.
        -- intros c' rest' [= <- <-] Hid. cbn.
           apply String.eqb_neq in Hid. rewrite Hid. reflexivity.
    + split; [reflexivity |]. split; [reflexivity |].
      split; [intros _; split; reflexivity |]. split.
      * intros c' rest' _ H. discriminate H.
      * intros c' rest' _ _. cbn. rewrite Hno. reflexivity.
Qed.

(** X18: after View Materials on a course whose id is not empty, the
    viewer that opens without a course of its own takes that course; a
    student then sees the modules of that course when there are some, and
    all modules when there are none. *)
Theorem view_materials_shows_course (host : Host) (c title : string)
  (db : Store) (nav : NavState) (st : ViewerState) (Hc : c <> "") :
  activeSection (handleViewMaterials c title nav) = "materials" /\
  initialViewingCourseId None (localStorage (handleViewMaterials c title nav))
    = Some c /\
  (whereCourseId c (db_modules db) <> [] ->
   modules (fetchModules host student
              (initialViewingCourseId None
                 (localStorage (handleViewMaterials c title nav))) db st)
   = map (adaptModule host) (whereCourseId c (db_modules db))) /\
  (whereCourseId c (db_modules db) = [] ->
   modules (fetchModules host student
              (initialViewingCourseId None
                 (localStorage (handleViewMaterials c title nav))) db st)
   = map (adaptModule host) (db_modules db)).
Proof.
  assert (Hinit : initialViewingCourseId None
                    (localStorage (handleViewMaterials c title nav)) = Some c).
  { unfold initialViewingCourseId, handleViewMaterials. cbn.
    apply String.eqb_neq in Hc. rewrite Hc. reflexivity. }
  rewrite Hinit. split; [reflexivity |]. split; [reflexivity |]. split.
  - apply fetchModules_student. exact Hc.
  - intros Hnone. unfold fetchModules, fetchModules_try.
    cbn [filtersByCourse]. pose proof Hc as Hc'.
    apply String.eqb_neq in Hc'. rewrite Hc'.
    rewrite (filteredModules_query host c _ Hc), Hnone. reflexivity.
Qed.

Lemma view_materials_shows_course_witness :
  map Module_.id
      (modules (fetchModules refHost student
                  (initialViewingCourseId None
                     (localStorage
                        (handleViewMaterials "c1" "Algebra" Sample.nav0)))
                  Sample.dbCourses Scenario.viewer0))
  = ["m1"].
Proof.
  assert (Hc : "c1" <> "") by discriminate.
  destruct (view_materials_shows_course refHost "c1" "Algebra"
              Sample.dbCourses Sample.nav0 Scenario.viewer0 Hc)
    as (_ & _ & Hsome & _).
  rewrite Hsome; [reflexivity | discriminate].
Defined.

(** X19: the Materials button of a schedule row writes only the key
    viewingModuleId; the course that the viewer takes from the storage when
    it opens, and with it the modules it lists, are the same as before the
    click. *)
Theorem viewScheduleMaterials_leaves_course (host : Host)
  (schedule : Schedule.t) (nav : NavState) (courseId : option string)
  (role : Role) (db : Store) (st : ViewerState) :
  (forall k, k <> "viewingModuleId" ->
     localStorage (viewScheduleMaterials schedule nav) k = localStorage nav k) /\
  initialViewingCourseId courseId
    (localStorage (viewScheduleMaterials schedule nav))
  = initialViewingCourseId courseId (localStorage nav) /\
  fetchModules host role
    (initialViewingCourseId courseId
       (localStorage (viewScheduleMaterials schedule nav))) db st
  = fetchModules host role
      (initialViewingCourseId courseId (localStorage nav)) db st.
Proof.
  assert (Hkeys : forall k, k <> "viewingModuleId" ->
            localStorage (viewScheduleMaterials schedule nav) k
            = localStorage nav k).
  { intros k Hk. unfold viewScheduleMaterials.
    destruct (Schedule.moduleId schedule) as [m |]; [| reflexivity].
    destruct (m =? "")%string; [reflexivity |].
    cbn. unfold setItem. apply String.eqb_neq in Hk. rewrite Hk.
    reflexivity. }
  assert (Hinit : initialViewingCourseId courseId
                    (localStorage (viewScheduleMaterials schedule nav))
                  = initialViewingCourseId courseId (localStorage nav)).
  { unfold initialViewingCourseId. rewrite Hkeys by discriminate.
    reflexivity. }
  split; [exact Hkeys |]. split; [exact Hinit |].
  rewrite Hinit. reflexivity.
Qed.
